(** * Provenance ledger and signal aggregation: a shallow embedding

    The definitions transcribe [src/blockchain.py] (classes [Block] and
    [Blockchain], and [verify_signature]) and the two aggregation entry
    points, [detect_ai_generated] of [src/detection_engine.py] and
    [detect_manipulation] of [src/tamper_detector.py].

    - A block digest is SHA-256 of the text [json.dumps] produces, both
      written out below, so the digests of the concrete chains are the ones
      [hashlib] gives.
    - A Python exception is a value of [exn]; running a method gives a
      [Run]: a result, a raised exception, or, for the nonce search, which
      has no bound of its own, the end of the step budget.
    - The ledger object carries its chain, its difficulty, the content of
      the file at its path and the lines it has printed.  The file is held
      as the value [json.load] yields for it; a write replaces that value.
      The methods that write are embedded twice: first on a path that takes
      every write, then, in [Disk], with what [os.makedirs] and [open]
      answer as a parameter and with the state a raising call leaves.  The
      first are the second on a path that accepts
      ([add_block_on_accepting], [init_on_accepting]).
    - Block fields have their annotated types: integers for [index] and
      [nonce], strings (code points up to U+00FF) for the rest, the
      timestamp a float known by its [repr].
    - Detector confidences are IEEE binary64 numbers, as Python floats are;
      the analysis methods themselves are parameters. *)

From Stdlib Require Import ZArith List String Ascii Bool Lia.
From Stdlib Require Import DecimalString DecimalZ DecimalPos.
From Stdlib Require Import Floats.
From stdpp Require Import base list.
Import ListNotations.
Local Open Scope string_scope.
Local Open Scope Z_scope.

(* The decimal weights below are read to the nearest binary64 value, as
   Python reads the same literals. *)
Set Warnings "-inexact-float".

(** ** SHA-256 (FIPS 180-4) over byte lists *)

Module SHA256.

Definition w32 (x : Z) : Z := Z.land x 0xffffffff.
Definition add32 (x y : Z) : Z := w32 (x + y).
Definition rotr (n x : Z) : Z := Z.lor (Z.shiftr x n) (w32 (Z.shiftl x (32 - n))).
Definition ch (x y z : Z) : Z :=
  Z.lxor (Z.land x y) (Z.land (Z.lxor x 0xffffffff) z).
Definition maj (x y z : Z) : Z :=
  Z.lxor (Z.lxor (Z.land x y) (Z.land x z)) (Z.land y z).
Definition bsig0 (x : Z) : Z := Z.lxor (Z.lxor (rotr 2 x) (rotr 13 x)) (rotr 22 x).
Definition bsig1 (x : Z) : Z := Z.lxor (Z.lxor (rotr 6 x) (rotr 11 x)) (rotr 25 x).
Definition ssig0 (x : Z) : Z := Z.lxor (Z.lxor (rotr 7 x) (rotr 18 x)) (Z.shiftr x 3).
Definition ssig1 (x : Z) : Z := Z.lxor (Z.lxor (rotr 17 x) (rotr 19 x)) (Z.shiftr x 10).

(** The round constants: the first 32 bits of the fractional parts of the
    cube roots of the first 64 primes. *)
Definition primes : list Z :=
  [ 2; 3; 5; 7; 11; 13; 17; 19; 23; 29; 31; 37; 41; 43; 47; 53; 59; 61; 67; 71;
    73; 79; 83; 89; 97; 101; 103; 107; 109; 113; 127; 131; 137; 139; 149; 151;
    157; 163; 167; 173; 179; 181; 191; 193; 197; 199; 211; 223; 227; 229; 233;
    239; 241; 251; 257; 263; 269; 271; 277; 281; 283; 293; 307; 311 ].

Definition K : list Z :=
  [ 1116352408; 1899447441; 3049323471; 3921009573; 961987163; 1508970993;
    2453635748; 2870763221; 3624381080; 310598401; 607225278; 1426881987;
    1925078388; 2162078206; 2614888103; 3248222580; 3835390401; 4022224774;
    264347078; 604807628; 770255983; 1249150122; 1555081692; 1996064986;
    2554220882; 2821834349; 2952996808; 3210313671; 3336571891; 3584528711;
    113926993; 338241895; 666307205; 773529912; 1294757372; 1396182291;
    1695183700; 1986661051; 2177026350; 2456956037; 2730485921; 2820302411;
    3259730800; 3345764771; 3516065817; 3600352804; 4094571909; 275423344;
    430227734; 506948616; 659060556; 883997877; 958139571; 1322822218;
    1537002063; 1747873779; 1955562222; 2024104815; 2227730452; 2361852424;
    2428436474; 2756734187; 3204031479; 3329325298 ].

(** [k] is the first 32 bits of the fractional part of the [r]-th root of
    [p] (for p < 400, whose roots are below 20): some whole part [c] puts
    [c + k / 2^32] at or below the root and [c + (k + 1) / 2^32] above it. *)
Definition frac_root_bits (r p k : Z) : bool :=
  let fits (c : Z) :=
    ((c * 2 ^ 32 + k) ^ r <=? p * 2 ^ (32 * r))
    && (p * 2 ^ (32 * r) <? (c * 2 ^ 32 + k + 1) ^ r) in
  (0 <=? k) && (k <? 2 ^ 32) && existsb fits (map Z.of_nat (seq 0 20)).

(** The eight working variables a..h. *)
Record regs : Type :=
  Regs { ra : Z; rb : Z; rc : Z; rd : Z; re : Z; rf : Z; rg : Z; rh : Z }.

(** The initial hash value: the first 32 bits of the fractional parts of
    the square roots of the first 8 primes. *)
Definition H0 : regs :=
  Regs 1779033703 3144134277 1013904242 2773480762
       1359893119 2600822924 528734635 1541459225.

Definition round (r : regs) (k w : Z) : regs :=
  let t1 :=
    add32 (add32 (add32 (add32 (rh r) (bsig1 (re r))) (ch (re r) (rf r) (rg r))) k) w in
  let t2 := add32 (bsig0 (ra r)) (maj (ra r) (rb r) (rc r)) in
  Regs (add32 t1 t2) (ra r) (rb r) (rc r) (add32 (rd r) t1) (re r) (rf r) (rg r).

(** The message schedule is kept as a sliding window of sixteen words:
    at round t the window holds W[t] .. W[t+15]. *)
Definition next_word (win : list Z) : Z :=
  add32 (add32 (add32 (ssig1 (nth 14 win 0)) (nth 9 win 0)) (ssig0 (nth 1 win 0)))
        (nth 0 win 0).

Fixpoint rounds (ks : list Z) (win : list Z) (r : regs) : regs :=
  match ks with
  | [] => r
  | k :: ks' => rounds ks' (tl win ++ [next_word win]) (round r k (nth 0 win 0))
  end.

Definition compress (h : regs) (block : list Z) : regs :=
  let r := rounds K block h in
  Regs (add32 (ra h) (ra r)) (add32 (rb h) (rb r)) (add32 (rc h) (rc r))
       (add32 (rd h) (rd r)) (add32 (re h) (re r)) (add32 (rf h) (rf r))
       (add32 (rg h) (rg r)) (add32 (rh h) (rh r)).

Fixpoint words (bs : list Z) : list Z :=
  match bs with
  | b0 :: b1 :: b2 :: b3 :: rest =>
      (Z.shiftl b0 24 + Z.shiftl b1 16 + Z.shiftl b2 8 + b3) :: words rest
  | _ => []
  end.

Definition be64 (n : Z) : list Z :=
  map (fun i => Z.land (Z.shiftr n (8 * i)) 255) [7; 6; 5; 4; 3; 2; 1; 0].

Definition pad (bs : list Z) : list Z :=
  let len := Z.of_nat (List.length bs) in
  bs ++ [128] ++ repeat 0 (Z.to_nat ((55 - len) mod 64)) ++ be64 (8 * len).

Fixpoint absorb (n : nat) (ws : list Z) (h : regs) : regs :=
  match n with
  | O => h
  | S n' => absorb n' (skipn 16 ws) (compress h (firstn 16 ws))
  end.

Definition digest (bs : list Z) : regs :=
  let ws := words (pad bs) in
  absorb (List.length ws / 16) ws H0.

Definition hexdigit (d : Z) : ascii :=
  nth (Z.to_nat d) (list_ascii_of_string "0123456789abcdef") "0"%char.

Definition hex8 (w : Z) : list ascii :=
  map (fun i => hexdigit (Z.land (Z.shiftr w (4 * i)) 15)) [7; 6; 5; 4; 3; 2; 1; 0].

Definition hexdigest (bs : list Z) : string :=
  let r := digest bs in
  string_of_list_ascii
    (hex8 (ra r) ++ hex8 (rb r) ++ hex8 (rc r) ++ hex8 (rd r) ++
     hex8 (re r) ++ hex8 (rf r) ++ hex8 (rg r) ++ hex8 (rh r)).

(** Two different messages with one digest. *)
Definition collision (x y : list Z) : Prop :=
  x <> y /\ hexdigest x = hexdigest y.

End SHA256.

(** ** Python strings and [json.dumps]

    A [str] is held as a Rocq [string] whose characters are the code points
    U+0000 .. U+00FF.  [json.dumps] runs with [ensure_ascii=True], so the
    text that is hashed is pure ASCII. *)

Definition code (c : ascii) : Z := Z.of_N (N_of_ascii c).

(** [str.encode()], UTF-8: one byte below U+0080, two bytes up to U+00FF. *)
Definition utf8_char (c : ascii) : list Z :=
  let n := code c in
  if n <? 128 then [n]
  else [Z.lor 192 (Z.shiftr n 6); Z.lor 128 (Z.land n 63)].

Definition encode (s : string) : list Z :=
  flat_map utf8_char (list_ascii_of_string s).

(** Reading back the first character of a UTF-8 byte sequence. *)
Definition utf8_first (bs : list Z) : option (ascii * list Z) :=
  match bs with
  | [] => None
  | b :: rest =>
      if b <? 128 then Some (ascii_of_N (Z.to_N b), rest)
      else
        match rest with
        | [] => None
        | b' :: rest' =>
            Some (ascii_of_N (Z.to_N (Z.shiftl (Z.land b 31) 6 + Z.land b' 63)), rest')
        end
  end.

Definition dquote : ascii := "034"%char.
Definition backslash : ascii := "092"%char.

Definition chars (l : list ascii) : string := string_of_list_ascii l.

(** [py_encode_basestring_ascii]: the replacement of one character. *)
Definition escape_char (c : ascii) : string :=
  let n := code c in
  if n =? 92 then chars [backslash; backslash]
  else if n =? 34 then chars [backslash; dquote]
  else if n =? 8 then chars [backslash; "b"%char]
  else if n =? 12 then chars [backslash; "f"%char]
  else if n =? 10 then chars [backslash; "n"%char]
  else if n =? 13 then chars [backslash; "r"%char]
  else if n =? 9 then chars [backslash; "t"%char]
  else if (32 <=? n) && (n <=? 126) then chars [c]
  else chars [backslash; "u"%char; "0"%char; "0"%char;
              SHA256.hexdigit (Z.shiftr n 4); SHA256.hexdigit (Z.land n 15)].

Fixpoint escape (s : string) : string :=
  match s with
  | EmptyString => EmptyString
  | String c s' => escape_char c ++ escape s'
  end.

Definition dumps_str (s : string) : string :=
  String dquote (escape s ++ chars [dquote]).

Definition dumps_int (z : Z) : string := NilZero.string_of_int (Z.to_int z).

(** A Python float is carried by its [repr], the one view of a timestamp the
    ledger takes: [json.dumps] prints a float with [float.__repr__], and
    [json.load] reads that text back to the same float. *)
Record PyFloat : Type := Float { float_repr : string }.

(** ** Exceptions and computations *)

Inductive exn : Type :=
  | OSError (msg : string)
  | JSONDecodeError (msg : string)
  | KeyError (key : string)
  | AttributeError (msg : string)
  | ValueError (msg : string)
  (* The error classes the specification names; blockchain.py defines and
     raises none of them. *)
  | ValidationError
  | DuplicateRegistrationError
  | MiningTimeoutError.

(** [str(e)] *)
Definition exn_str (e : exn) : string :=
  match e with
  | OSError msg | JSONDecodeError msg | AttributeError msg | ValueError msg => msg
  | KeyError key => "'" ++ key ++ "'"
  | ValidationError | DuplicateRegistrationError | MiningTimeoutError => EmptyString
  end.

(** The outcome of running a piece of the program: it returns, it raises, or
    (for the unbounded nonce search only) the step budget of the model ran
    out while the loop was still going. *)
Inductive Run (A : Type) : Type :=
  | Done (a : A)
  | Raised (e : exn)
  | OutOfFuel.
Arguments Done {A} a.
Arguments Raised {A} e.
Arguments OutOfFuel {A}.

Definition bind {A B : Type} (m : Run A) (k : A -> Run B) : Run B :=
  match m with
  | Done a => k a
  | Raised e => Raised e
  | OutOfFuel => OutOfFuel
  end.

Notation "x <- m ;; k" := (bind m (fun x => k))
  (at level 100, m at next level, right associativity).

(** ** class Block *)

Record Block : Type := mkBlock {
  index : Z;
  timestamp : PyFloat;
  content_hash : string;
  creator_public_key : string;
  signature : string;
  previous_hash : string;
  nonce : Z;
  (* The attribute [hash] is not set by [__init__]; it exists once
     [block.hash = ...] has run. *)
  hash : option string
}.

Definition key (k : string) : string := dumps_str k ++ ": ".

(** [json.dumps(self.to_dict(), sort_keys=True, default=str)] *)
Definition block_string (b : Block) : string :=
  "{" ++ key "content_hash" ++ dumps_str (content_hash b) ++ ", "
      ++ key "creator_public_key" ++ dumps_str (creator_public_key b) ++ ", "
      ++ key "index" ++ dumps_int (index b) ++ ", "
      ++ key "nonce" ++ dumps_int (nonce b) ++ ", "
      ++ key "previous_hash" ++ dumps_str (previous_hash b) ++ ", "
      ++ key "signature" ++ dumps_str (signature b) ++ ", "
      ++ key "timestamp" ++ float_repr (timestamp b) ++ "}".

Definition calculate_hash (b : Block) : string :=
  SHA256.hexdigest (encode (block_string b)).

(** ** The persisted ledger document

    The file is modelled by what the first statements of [load_blockchain]
    make of it: it does not exist, opening or parsing it raises, or
    [json.load] returns a document.  A document is the JSON object
    [save_blockchain] writes, each key present or not, with values of the
    types [Block] annotates.  [load_blockchain] itself checks no type: a
    document that holds other values (a string for an index, say) is loaded
    as it is, and is outside this model. *)

Record BlockData : Type := mkBlockData {
  d_index : option Z;
  d_timestamp : option PyFloat;
  d_content_hash : option string;
  d_creator_public_key : option string;
  d_signature : option string;
  d_previous_hash : option string;
  d_nonce : option Z
}.

Record Document : Type := mkDocument {
  doc_chain : option (list BlockData);
  doc_length : option Z;
  doc_valid : option bool
}.

Inductive File : Type :=
  | Absent                      (* os.path.exists(...) is False *)
  | Unreadable (e : exn)        (* open(...) or json.load(f) raises e *)
  | Stored (doc : Document).    (* json.load(f) returns doc *)

(** [Block.to_dict] *)
Definition to_dict (b : Block) : BlockData :=
  mkBlockData (Some (index b)) (Some (timestamp b)) (Some (content_hash b))
              (Some (creator_public_key b)) (Some (signature b))
              (Some (previous_hash b)) (Some (nonce b)).

(** ** class Blockchain *)

Record Blockchain : Type := mkBlockchain {
  chain : list Block;
  difficulty : Z;
  blockchain_file : File;       (* the content found at self.blockchain_file *)
  stdout : list string          (* the lines printed so far *)
}.

Definition set_chain (c : list Block) (self : Blockchain) : Blockchain :=
  mkBlockchain c (difficulty self) (blockchain_file self) (stdout self).

Definition set_file (f : File) (self : Blockchain) : Blockchain :=
  mkBlockchain (chain self) (difficulty self) f (stdout self).

Definition print (line : string) (self : Blockchain) : Blockchain :=
  mkBlockchain (chain self) (difficulty self) (blockchain_file self)
               (stdout self ++ [line]).

Definition set_nonce (n : Z) (b : Block) : Block :=
  mkBlock (index b) (timestamp b) (content_hash b) (creator_public_key b)
          (signature b) (previous_hash b) n (hash b).

Definition set_hash (h : string) (b : Block) : Block :=
  mkBlock (index b) (timestamp b) (content_hash b) (creator_public_key b)
          (signature b) (previous_hash b) (nonce b) (Some h).

(** ['0' * n]: the empty string when [n <= 0]. *)
Definition zeros (n : Z) : string := chars (repeat "0"%char (Z.to_nat n)).

(** [s.startswith(p)] *)
Definition startswith (s p : string) : bool := String.prefix p s.

(** The proof-of-work test both [proof_of_work] and [validate_block] make. *)
Definition meets_difficulty (d : Z) (b : Block) : bool :=
  startswith (calculate_hash b) (zeros d).

(** [Blockchain.validate_block] *)
Definition validate_block (d : Z) (new_block previous_block : Block) : bool :=
  if negb (index previous_block + 1 =? index new_block) then false
  else if negb (calculate_hash previous_block =? previous_hash new_block)%string then false
  else if negb (meets_difficulty d new_block) then false
  else true.

(** The loop of [is_valid_chain], walking the adjacent pairs
    [(chain[i-1], chain[i])] for i = 1, 2, ... *)
Fixpoint valid_from (d : Z) (previous_block : Block) (rest : list Block) : Run bool :=
  match rest with
  | [] => Done true
  | current_block :: rest' =>
      if negb (validate_block d current_block previous_block) then Done false
      else
        match hash current_block with
        | None => Raised (AttributeError "'Block' object has no attribute 'hash'")
        | Some stored =>
            if negb (calculate_hash current_block =? stored)%string then Done false
            else valid_from d current_block rest'
        end
  end.

(** [Blockchain.is_valid_chain] *)
Definition is_valid_chain (self : Blockchain) : Run bool :=
  match chain self with
  | [] => Done true
  | first :: rest => valid_from (difficulty self) first rest
  end.

(** [Blockchain.save_blockchain] on a path that takes the write: the
    document replaces the file.  [Disk.save_blockchain] below is the method
    on a path that may refuse. *)
Definition save_blockchain (self : Blockchain) : Run Blockchain :=
  valid <- is_valid_chain self ;;
  Done (set_file
          (Stored (mkDocument (Some (map to_dict (chain self)))
                              (Some (Z.of_nat (List.length (chain self))))
                              (Some valid)))
          self).

Definition genesis_block (now : PyFloat) : Block :=
  let b := mkBlock 0 now
             "0000000000000000000000000000000000000000000000000000000000000000"
             "GENESIS" "GENESIS" "0" 0 None in
  set_hash (calculate_hash b) b.

(** [Blockchain.create_genesis_block]; [now] is what [time.time()] returns. *)
Definition create_genesis_block (now : PyFloat) (self : Blockchain) : Run Blockchain :=
  save_blockchain (set_chain (chain self ++ [genesis_block now]) self).

(** The [while] loop of [proof_of_work], entered with the digest of the
    current nonce still to be tested; [fuel] bounds the iterations the model
    follows, the program has no such bound. *)
Fixpoint pow_loop (fuel : nat) (d : Z) (block : Block) : Run Block :=
  let computed_hash := calculate_hash block in
  if startswith computed_hash (zeros d) then Done (set_hash computed_hash block)
  else
    match fuel with
    | O => OutOfFuel
    | S fuel' => pow_loop fuel' d (set_nonce (nonce block + 1) block)
    end.

(** [Blockchain.proof_of_work] *)
Definition proof_of_work (fuel : nat) (d : Z) (block : Block) : Run Block :=
  pow_loop fuel d (set_nonce 0 block).

(** The candidate [add_block] builds on the tail of the chain. *)
Definition new_block (previous_block : Block) (now : PyFloat)
    (content_hash creator_public_key signature : string) : Block :=
  mkBlock (index previous_block + 1) now content_hash creator_public_key
          signature (calculate_hash previous_block) 0 None.

(** Lines 92-97 of [add_block]: validate the candidate, then append and
    save, or return False. *)
Definition commit_block (self : Blockchain) (candidate previous_block : Block)
    : Run (bool * Blockchain) :=
  if validate_block (difficulty self) candidate previous_block then
    saved <- save_blockchain (set_chain (chain self ++ [candidate]) self) ;;
    Done (true, saved)
  else Done (false, self).

(** [Blockchain.add_block]; [last] is [self.chain[-1]]. *)
Definition add_block (fuel : nat) (now : PyFloat) (self : Blockchain)
    (content_hash creator_public_key signature : string) : Run (bool * Blockchain) :=
  match last (chain self) with
  | None => Done (false, self)
  | Some previous_block =>
      mined <- proof_of_work fuel (difficulty self)
                 (new_block previous_block now content_hash creator_public_key signature) ;;
      commit_block self mined previous_block
  end.

(** [try: body except Exception as e: handler(e)] *)
Definition try_except {A : Type} (body : Run A) (handler : exn -> Run A) : Run A :=
  match body with
  | Done a => Done a
  | Raised e => handler e
  | OutOfFuel => OutOfFuel
  end.

(** [with open(self.blockchain_file, 'r') as f: json.load(f)] *)
Definition read_json (f : File) : Run Document :=
  match f with
  | Absent => Raised (OSError "[Errno 2] No such file or directory")
  | Unreadable e => Raised e
  | Stored doc => Done doc
  end.

(** [d[k]] on a JSON object whose key [k] holds [v] or is missing. *)
Definition item {A : Type} (k : string) (v : option A) : Run A :=
  match v with
  | Some a => Done a
  | None => Raised (KeyError k)
  end.

(** One [block_data] of the persisted chain turned into a [Block]; the keys
    are read in the order of the constructor call, [nonce] defaults to 0,
    and the attribute [hash] is set to the recomputed digest. *)
Definition block_of_data (bd : BlockData) : Run Block :=
  i <- item "index" (d_index bd) ;;
  t <- item "timestamp" (d_timestamp bd) ;;
  c <- item "content_hash" (d_content_hash bd) ;;
  k <- item "creator_public_key" (d_creator_public_key bd) ;;
  s <- item "signature" (d_signature bd) ;;
  p <- item "previous_hash" (d_previous_hash bd) ;;
  let block := mkBlock i t c k s p (default 0 (d_nonce bd)) None in
  Done (set_hash (calculate_hash block) block).

(** The [for] loop of [load_blockchain]; [acc] is [self.chain] so far. *)
Fixpoint load_loop (acc : list Block) (data : list BlockData) : Run (list Block) :=
  match data with
  | [] => Done acc
  | block_data :: data' =>
      block <- block_of_data block_data ;;
      load_loop (acc ++ [block]) data'
  end.

(** The body of the [try] in [load_blockchain]. *)
Definition try_load (f : File) : Run (list Block) :=
  blockchain_data <- read_json f ;;
  data <- item "chain" (doc_chain blockchain_data) ;;
  load_loop [] data.

(** [Blockchain.load_blockchain] *)
Definition load_blockchain (self : Blockchain) : Run Blockchain :=
  match blockchain_file self with
  | Absent => Done self
  | f =>
      try_except
        (blocks <- try_load f ;; Done (set_chain blocks self))
        (fun e =>
           Done (set_chain [] (print ("Error loading blockchain: " ++ exn_str e) self)))
  end.

(** [Blockchain.__init__] on a path whose content is [f]; [now] is the clock
    reading a genesis block would take. *)
Definition init (f : File) (now : PyFloat) : Run Blockchain :=
  self <- load_blockchain (mkBlockchain [] 2 f []) ;;
  if (List.length (chain self) =? 0)%nat then create_genesis_block now self
  else Done self.

(** [Blockchain.get_content_registration]: the first block that matches. *)
Definition get_content_registration (self : Blockchain) (h : string) : option Block :=
  List.find (fun block => (content_hash block =? h)%string) (chain self).

(** ** Signature verification (module-level utility) *)

Definition hexval (c : ascii) : option Z :=
  let n := code c in
  if (48 <=? n) && (n <=? 57) then Some (n - 48)
  else if (97 <=? n) && (n <=? 102) then Some (n - 87)
  else if (65 <=? n) && (n <=? 70) then Some (n - 55)
  else None.

Definition isspace (c : ascii) : bool :=
  let n := code c in (n =? 32) || ((9 <=? n) && (n <=? 13)).

(** [bytes.fromhex]: two hex digits per byte, ASCII whitespace skipped
    between bytes. *)
Fixpoint fromhex (s : string) : Run (list Z) :=
  match s with
  | EmptyString => Done []
  | String c s' =>
      if isspace c then fromhex s'
      else
        match s' with
        | EmptyString => Raised (ValueError "non-hexadecimal number found in fromhex() arg")
        | String c' s'' =>
            match hexval c, hexval c' with
            | Some top, Some bot =>
                rest <- fromhex s'' ;; Done (16 * top + bot :: rest)
            | _, _ => Raised (ValueError "non-hexadecimal number found in fromhex() arg")
            end
        end
  end.

(** [verify_signature]; the public key object is its [verify] method, which
    answers [false] where the library raises [InvalidSignature]. *)
Definition verify_signature (content_hash signature_hex : string)
    (public_key : list Z -> list Z -> bool) : Run bool :=
  sig <- fromhex signature_hex ;;
  let message := encode content_hash in
  Done (public_key sig message).

(** ** Predicates the statements use *)

(** The attribute [hash] exists. *)
Definition has_hash (b : Block) : Prop := hash b <> None.

(** The attribute [hash] holds the digest of the block as it is now. *)
Definition sealed (b : Block) : Prop := hash b = Some (calculate_hash b).

(** The number of leading ['0'] characters. *)
Fixpoint leading_zeros (s : string) : nat :=
  match s with
  | String c s' => if (c =? "0")%char then S (leading_zeros s') else O
  | EmptyString => O
  end.

(** [is_valid_chain] without its stored-hash comparison: the adjacent pairs
    pass [validate_block]. *)
Fixpoint linked (d : Z) (previous_block : Block) (rest : list Block) : bool :=
  match rest with
  | [] => true
  | current_block :: rest' =>
      validate_block d current_block previous_block && linked d current_block rest'
  end.

Definition links_valid (self : Blockchain) : bool :=
  match chain self with
  | [] => true
  | first :: rest => linked (difficulty self) first rest
  end.

(** The document [save_blockchain] writes for a chain. *)
Definition snapshot (c : list Block) (valid : bool) : File :=
  Stored (mkDocument (Some (map to_dict c)) (Some (Z.of_nat (List.length c))) (Some valid)).

(** A ledger built only by successful appends: a genesis block created on
    an empty chain, then calls of [add_block] that returned True. *)
Inductive built : Blockchain -> Prop :=
  | built_genesis (now : PyFloat) (empty self : Blockchain) :
      chain empty = [] ->
      create_genesis_block now empty = Done self ->
      built self
  | built_append (fuel : nat) (now : PyFloat) (self self' : Blockchain)
      (content_hash creator_public_key signature : string) :
      built self ->
      add_block fuel now self content_hash creator_public_key signature = Done (true, self') ->
      built self'.

(** One round of the loop of [is_valid_chain] on a pair of neighbours. *)
Definition check_pair (d : Z) (previous_block current_block : Block) : Run bool :=
  if negb (validate_block d current_block previous_block) then Done false
  else
    match hash current_block with
    | None => Raised (AttributeError "'Block' object has no attribute 'hash'")
    | Some stored => Done (calculate_hash current_block =? stored)%string
    end.

(** Reading back the first escaped character of a JSON string body. *)
Definition unescape_first (s : string) : option (ascii * string) :=
  match s with
  | EmptyString => None
  | String c rest =>
      if (c =? backslash)%char then
        match rest with
        | EmptyString => None
        | String e rest' =>
            if (e =? "u")%char then
              match rest' with
              | String _ (String _ (String h (String l rest''))) =>
                  match hexval h, hexval l with
                  | Some hv, Some lv => Some (ascii_of_N (Z.to_N (16 * hv + lv)), rest'')
                  | _, _ => None
                  end
              | _ => None
              end
            else if (e =? "b")%char then Some ("008"%char, rest')
            else if (e =? "f")%char then Some ("012"%char, rest')
            else if (e =? "n")%char then Some ("010"%char, rest')
            else if (e =? "r")%char then Some ("013"%char, rest')
            else if (e =? "t")%char then Some ("009"%char, rest')
            else Some (e, rest')
        end
      else Some (c, rest)
  end.

(** An assignment to one of the four fields of a stored block; the
    attribute [hash] stays as it was. *)
Inductive FieldWrite : Type :=
  | write_content_hash (v : string)
  | write_previous_hash (v : string)
  | write_nonce (v : Z)
  | write_index (v : Z).

Definition write (w : FieldWrite) (b : Block) : Block :=
  match w with
  | write_content_hash v =>
      mkBlock (index b) (timestamp b) v (creator_public_key b) (signature b)
              (previous_hash b) (nonce b) (hash b)
  | write_previous_hash v =>
      mkBlock (index b) (timestamp b) (content_hash b) (creator_public_key b)
              (signature b) v (nonce b) (hash b)
  | write_nonce v => set_nonce v b
  | write_index v =>
      mkBlock v (timestamp b) (content_hash b) (creator_public_key b) (signature b)
              (previous_hash b) (nonce b) (hash b)
  end.

(** ** A concrete ledger

    A cold start at clock reading 1700000000.0, then the digest of the bytes
    of "hello" registered twice; the digests are those [hashlib] gives. *)

Definition T0 : PyFloat := Float "1700000000.0".
Definition T1 : PyFloat := Float "1700000007.0".
Definition T2 : PyFloat := Float "1700000010.0".

Definition hello : string :=
  "2cf24dba5fb0a30e26e83b2ac5b9e29e1b161e5c1fa7425e73043362938b9824".

Definition block0 : Block :=
  mkBlock 0 T0 "0000000000000000000000000000000000000000000000000000000000000000"
          "GENESIS" "GENESIS" "0" 0
          (Some "0a396940cc82ed25c7a69f01e980c032b744577681c5c98481eb8799a5edf359").

Definition block1 : Block :=
  mkBlock 1 T1 hello "alice-key" "00ff"
          "0a396940cc82ed25c7a69f01e980c032b744577681c5c98481eb8799a5edf359" 1
          (Some "0064f79b076c29581f44bf127541804d7786bca8c12c7f7bf6fb5ab286b95b2a").

Definition block2 : Block :=
  mkBlock 2 T2 hello "alice-key" "00ff"
          "0064f79b076c29581f44bf127541804d7786bca8c12c7f7bf6fb5ab286b95b2a" 0
          (Some "007fe71b97da5b66d42e643a446a5d813d3d38f01a90350ec66fbd75c7ed0c96").

Definition ledger_of (c : list Block) : Blockchain :=
  mkBlockchain c 2 (snapshot c true) [].

Definition ledger0 : Blockchain := ledger_of [block0].
Definition ledger1 : Blockchain := ledger_of [block0; block1].
Definition ledger2 : Blockchain := ledger_of [block0; block1; block2].

(** A ledger whose difficulty asks for more zeros than a digest has
    characters. *)
Definition misconfigured : Blockchain :=
  mkBlockchain [block0] 65 (snapshot [block0] true) [].


(** ** Signal aggregation

    The forensic algorithms are external: each analysis method maps an image
    path to a confidence and a diagnostic mapping.  [calls] records, in
    order, the methods that were invoked. *)

Inductive AIMethod : Type :=
  | detect_frequency_artifacts
  | detect_noise_residual_patterns
  | detect_gan_fingerprints
  | detect_diffusion_artifacts.

Inductive TamperMethod : Type :=
  | error_level_analysis
  | detect_cloning_tampering
  | detect_face_swaps
  | detect_splicing_tampering
  | detect_re_encoding_inconsistencies
  | detect_metadata_visual_mismatch.

(** [content_data]: the keys the two entry points read. *)
Record ContentData : Type := mkContentData {
  content_type : option string;
  file_path : option string
}.

(** The result dictionary of either entry point; [calls] is the model's
    record of the invocations made. *)
Inductive Signals (Details : Type) : Type :=
  | NoSignals
  | Measured (entries : list (string * (float * Details)))
  | Note (text : string).
Arguments NoSignals {Details}.
Arguments Measured {Details} entries.
Arguments Note {Details} text.

Record Results (Details Method : Type) : Type := mkResults {
  flagged : bool;                 (* 'is_ai_generated' / 'is_manipulated' *)
  overall_confidence : float;
  signals : Signals Details;      (* 'detection_signals' / 'manipulation_signals' *)
  evidence : list string;
  method_used : string;
  error : option string;
  calls : list Method
}.
Arguments mkResults {Details Method}.
Arguments flagged {Details Method}.
Arguments overall_confidence {Details Method}.
Arguments signals {Details Method}.
Arguments evidence {Details Method}.
Arguments method_used {Details Method}.
Arguments error {Details Method}.
Arguments calls {Details Method}.

(** [if conf > 0.5: results['evidence'].append(line)] *)
Definition append_if_over (conf : float) (line : string) (ev : list string) : list string :=
  if (0.5 <? conf)%float then (ev ++ [line])%list else ev.

(** *** The aggregation rule of the specification

    A registered detector has a weight and an evidence line; evaluation sums
    [confidence * weight] over the registered detectors and emits the line
    of each detector whose confidence is above 0.5. *)

Record Registered (Method : Type) : Type := mkRegistered {
  detector : Method;
  weight : float;
  line : string
}.
Arguments mkRegistered {Method}.
Arguments detector {Method}.
Arguments weight {Method}.
Arguments line {Method}.

Definition ai_registry : list (Registered AIMethod) :=
  [ mkRegistered detect_frequency_artifacts 0.25 "Unnatural frequency domain patterns detected";
    mkRegistered detect_noise_residual_patterns 0.25 "Suspicious noise residual patterns detected";
    mkRegistered detect_gan_fingerprints 0.25 "GAN fingerprint patterns detected";
    mkRegistered detect_diffusion_artifacts 0.25 "Diffusion model artifacts detected" ].

Definition tamper_registry : list (Registered TamperMethod) :=
  [ mkRegistered error_level_analysis 0.2 "Error Level Analysis indicates possible re-compression";
    mkRegistered detect_cloning_tampering 0.15 "Cloning/forgery patterns detected";
    mkRegistered detect_face_swaps 0.15 "Suspicious facial features detected";
    mkRegistered detect_splicing_tampering 0.2 "Possible image splicing detected";
    mkRegistered detect_re_encoding_inconsistencies 0.15 "Re-encoding inconsistencies detected";
    mkRegistered detect_metadata_visual_mismatch 0.15 "Metadata does not match visual content" ].

Section Aggregation.

Variable Details : Type.
Variable ai_method : AIMethod -> string -> float * Details.
Variable tamper_method : TamperMethod -> string -> float * Details.

(** A call of an analysis method, logged. *)
Definition invoke {Method : Type} (run : Method -> string -> float * Details)
    (m : Method) (image_path : string) (log : list Method)
    : (float * Details) * list Method :=
  (run m image_path, (log ++ [m])%list).

(** [AIGenerationDetector.detect_ai_generated] *)
Definition detect_ai_generated (content_data : ContentData)
    : Run (Results Details AIMethod) :=
  let kind := default "unknown" (content_type content_data) in
  if (kind =? "image")%string then
    image_path <- item "file_path" (file_path content_data) ;;
    let '((freq_conf, freq_details), log) :=
      invoke ai_method detect_frequency_artifacts image_path [] in
    let '((noise_conf, noise_details), log) :=
      invoke ai_method detect_noise_residual_patterns image_path log in
    let '((gan_conf, gan_details), log) :=
      invoke ai_method detect_gan_fingerprints image_path log in
    let '((diff_conf, diff_details), log) :=
      invoke ai_method detect_diffusion_artifacts image_path log in
    let detection_signals :=
      [ ("frequency_analysis", (freq_conf, freq_details));
        ("noise_analysis", (noise_conf, noise_details));
        ("gan_fingerprint", (gan_conf, gan_details));
        ("diffusion_artifact", (diff_conf, diff_details)) ] in
    let weighted_confidence :=
      (freq_conf * 0.25 + noise_conf * 0.25 + gan_conf * 0.25 + diff_conf * 0.25)%float in
    let ev := [] in
    let ev := append_if_over freq_conf "Unnatural frequency domain patterns detected" ev in
    let ev := append_if_over noise_conf "Suspicious noise residual patterns detected" ev in
    let ev := append_if_over gan_conf "GAN fingerprint patterns detected" ev in
    let ev := append_if_over diff_conf "Diffusion model artifacts detected" ev in
    Done (mkResults (0.5 <? weighted_confidence)%float weighted_confidence
                    (Measured detection_signals) ev "multi_signal_analysis" None log)
  else if (kind =? "video")%string then
    Done (mkResults false 0.3%float
                    (Note "Video analysis requires actual frame data extraction for full analysis")
                    [] "multi_signal_analysis" None [])
  else
    Done (mkResults false 0%float NoSignals [] "multi_signal_analysis"
                    (Some ("Unsupported content type: " ++ kind)) []).

(** [TamperDetector.detect_manipulation] *)
Definition detect_manipulation (content_data : ContentData)
    : Run (Results Details TamperMethod) :=
  let kind := default "unknown" (content_type content_data) in
  if (kind =? "image")%string then
    image_path <- item "file_path" (file_path content_data) ;;
    let '((ela_conf, ela_details), log) :=
      invoke tamper_method error_level_analysis image_path [] in
    let '((clone_conf, clone_details), log) :=
      invoke tamper_method detect_cloning_tampering image_path log in
    let '((face_conf, face_details), log) :=
      invoke tamper_method detect_face_swaps image_path log in
    let '((splice_conf, splice_details), log) :=
      invoke tamper_method detect_splicing_tampering image_path log in
    let '((reenc_conf, reenc_details), log) :=
      invoke tamper_method detect_re_encoding_inconsistencies image_path log in
    let '((meta_conf, meta_details), log) :=
      invoke tamper_method detect_metadata_visual_mismatch image_path log in
    let manipulation_signals :=
      [ ("error_level_analysis", (ela_conf, ela_details));
        ("cloning_detection", (clone_conf, clone_details));
        ("face_swap_detection", (face_conf, face_details));
        ("splicing_detection", (splice_conf, splice_details));
        ("re_encoding_analysis", (reenc_conf, reenc_details));
        ("metadata_visual_match", (meta_conf, meta_details)) ] in
    let weighted_confidence :=
      (ela_conf * 0.2 + clone_conf * 0.15 + face_conf * 0.15 +
       splice_conf * 0.2 + reenc_conf * 0.15 + meta_conf * 0.15)%float in
    let ev := [] in
    let ev := append_if_over ela_conf "Error Level Analysis indicates possible re-compression" ev in
    let ev := append_if_over clone_conf "Cloning/forgery patterns detected" ev in
    let ev := append_if_over face_conf "Suspicious facial features detected" ev in
    let ev := append_if_over splice_conf "Possible image splicing detected" ev in
    let ev := append_if_over reenc_conf "Re-encoding inconsistencies detected" ev in
    let ev := append_if_over meta_conf "Metadata does not match visual content" ev in
    Done (mkResults (0.5 <? weighted_confidence)%float weighted_confidence
                    (Measured manipulation_signals) ev "multi_method_analysis" None log)
  else if (kind =? "video")%string then
    Done (mkResults false 0.2%float
                    (Note "Video manipulation detection requires specialized frame-by-frame analysis")
                    ["Video analysis requires additional frame-level processing"]
                    "multi_method_analysis" None [])
  else
    Done (mkResults false 0%float NoSignals [] "multi_method_analysis"
                    (Some ("Unsupported content type: " ++ kind)) []).

Section Rule.

Context {Method : Type}.
Variable run : Method -> string -> float * Details.
Variable image_path : string.

Definition confidence_of (r : Registered Method) : float :=
  fst (run (detector r) image_path).

(** The sum of [confidence_i * weight_i], taken left to right. *)
Definition spec_weighted_sum (registry : list (Registered Method)) : float :=
  match registry with
  | [] => 0%float
  | r :: rest =>
      fold_left (fun acc r' => (acc + confidence_of r' * weight r')%float) rest
                (confidence_of r * weight r)%float
  end.

(** The lines of exactly the detectors whose confidence exceeds 0.5. *)
Definition spec_evidence (registry : list (Registered Method)) : list string :=
  map line (List.filter (fun r => (0.5 <? confidence_of r)%float) registry).

End Rule.

End Aggregation.

(** ** A concrete image evaluation

    Detectors that answer fixed confidences, whatever the path. *)

Definition sample_ai (m : AIMethod) (_ : string) : float * string :=
  match m with
  | detect_frequency_artifacts => (0.9%float, "fft")
  | detect_noise_residual_patterns => (0.25%float, "noise")
  | detect_gan_fingerprints => (0.75%float, "wavelet")
  | detect_diffusion_artifacts => (0.5%float, "texture")
  end.

Definition sample_tamper (m : TamperMethod) (_ : string) : float * string :=
  match m with
  | error_level_analysis => (0.75%float, "ela")
  | detect_cloning_tampering => (0%float, "Could not load image")
  | detect_face_swaps => (0.5%float, "faces")
  | detect_splicing_tampering => (1%float, "edges")
  | detect_re_encoding_inconsistencies => (0.25%float, "dct")
  | detect_metadata_visual_mismatch => (0%float, "exif")
  end.

Definition sample_image : ContentData :=
  mkContentData (Some "image") (Some "photo.jpg").

(** ** Lookups and reports *)

(** The dictionary [get_content_registration] returns for a block. *)
Record Registration : Type := mkRegistration {
  reg_index : Z;
  reg_timestamp : PyFloat;
  reg_content_hash : string;
  reg_creator_public_key : string;
  reg_signature : string;
  reg_block_hash : string
}.

Definition registration (block : Block) : Registration :=
  mkRegistration (index block) (timestamp block) (content_hash block)
                 (creator_public_key block) (signature block) (calculate_hash block).

(** [Blockchain.get_content_registration], with the dictionary it builds. *)
Definition get_content_registration_record (self : Blockchain) (h : string)
    : option Registration :=
  option_map registration (get_content_registration self h).

Inductive Status : Type := VERIFIED | NOT_FOUND.

Record VerificationReport : Type := mkReport {
  report_status : Status;
  report_confidence : float;
  report_message : string;
  registration_info : option Registration;
  is_original : bool;
  first_seen : option string
}.

(** [Blockchain.get_verification_report]; [isoformat] stands for
    [datetime.fromtimestamp(t).isoformat()], which reads the local time zone
    and raises on a timestamp out of range. *)
Definition get_verification_report (isoformat : PyFloat -> Run string)
    (self : Blockchain) (h : string) : Run VerificationReport :=
  match get_content_registration_record self h with
  | Some found =>
      seen <- isoformat (reg_timestamp found) ;;
      Done (mkReport VERIFIED 0.95%float "Content registered in blockchain"
                     (Some found) true (Some seen))
  | None =>
      Done (mkReport NOT_FOUND 0.1%float "Content not found in blockchain"
                     None false None)
  end.

(** What a reload makes of a block: the fields as they are, the attribute
    [hash] recomputed. *)
Definition reseal (b : Block) : Block := set_hash (calculate_hash b) b.


(** ** Signing *)

(** [bytes.hex()] *)
Definition hex (bs : list Z) : string :=
  chars (flat_map (fun b => [SHA256.hexdigit (Z.shiftr b 4);
                             SHA256.hexdigit (Z.land b 15)]) bs).

(** A [bytes] value: every element is in range(256). *)
Definition is_bytes (bs : list Z) : Prop := Forall (fun b => 0 <= b < 256) bs.

(** [sign_content]; the private key object is its [sign] method. *)
Definition sign_content (content_hash : string) (private_key : list Z -> list Z)
    : string :=
  let message := encode content_hash in
  hex (private_key message).

(** ** class IdentityManager (the methods that sign and verify) *)

Module IdentityManager.

Section Keys.

(** [serialization.load_pem_private_key] and [load_pem_public_key], which
    raise on text that is not a key; a loaded key is its [sign] or [verify]
    method. *)
Variable load_pem_private_key : list Z -> Run (list Z -> list Z).
Variable load_pem_public_key : list Z -> Run (list Z -> list Z -> bool).

Definition sign_message (private_key_pem message : string) : Run string :=
  private_key <- load_pem_private_key (encode private_key_pem) ;;
  Done (hex (private_key (encode message))).

(** Both [except] clauses return False. *)
Definition verify_signature (public_key_pem message signature_hex : string)
    : Run bool :=
  try_except
    (public_key <- load_pem_public_key (encode public_key_pem) ;;
     sig <- fromhex signature_hex ;;
     Done (public_key sig (encode message)))
    (fun _ => Done false).

End Keys.

End IdentityManager.

(** ** class CreatorRegistry

    [self.creators] is a dictionary with the keys 'creators', 'version' and
    'last_updated'; the inner dictionary is kept in insertion order, the
    order Python keeps and [json.dump] writes. *)

Module CreatorRegistry.

Record CreatorInfo (Metadata : Type) : Type := mkCreatorInfo {
  identity_name : string;
  public_key_fingerprint : string;
  registered_at : string;
  metadata : Metadata
}.
Arguments mkCreatorInfo {Metadata}.
Arguments identity_name {Metadata}.
Arguments public_key_fingerprint {Metadata}.
Arguments registered_at {Metadata}.
Arguments metadata {Metadata}.

Record Contents (Metadata : Type) : Type := mkContents {
  creators : list (string * CreatorInfo Metadata);
  version : string;
  last_updated : string
}.
Arguments mkContents {Metadata}.
Arguments creators {Metadata}.
Arguments version {Metadata}.
Arguments last_updated {Metadata}.

Record Registry (Metadata : Type) : Type := mkRegistry {
  contents : Contents Metadata;                 (* self.creators *)
  registry_file : option (Contents Metadata)    (* None: no file at the path *)
}.
Arguments mkRegistry {Metadata}.
Arguments contents {Metadata}.
Arguments registry_file {Metadata}.

(** [d.get(k)] *)
Fixpoint get {V : Type} (k : string) (d : list (string * V)) : option V :=
  match d with
  | [] => None
  | (k', v) :: d' => if (k' =? k)%string then Some v else get k d'
  end.

(** [d[k] = v]: the value is replaced in place, a new key goes last. *)
Fixpoint set {V : Type} (k : string) (v : V) (d : list (string * V))
    : list (string * V) :=
  match d with
  | [] => [(k, v)]
  | (k', v') :: d' =>
      if (k' =? k)%string then (k', v) :: d' else (k', v') :: set k v d'
  end.

(** [_load_registry]; [now] is what [_get_timestamp] returns. *)
Definition load_registry {Metadata : Type} (file : option (Contents Metadata))
    (now : string) : Contents Metadata :=
  match file with
  | Some stored => stored
  | None => mkContents [] "1.0" now
  end.

(** [CreatorRegistry.__init__] *)
Definition init {Metadata : Type} (file : option (Contents Metadata)) (now : string)
    : Registry Metadata :=
  mkRegistry (load_registry file now) file.

(** [_save_registry] *)
Definition save_registry {Metadata : Type} (now : string) (self : Registry Metadata)
    : Registry Metadata :=
  let updated := mkContents (creators (contents self)) (version (contents self)) now in
  mkRegistry updated (Some updated).

(** [register_creator]; [metadata or {}] puts the empty dictionary [empty]
    where no metadata is given.  [now] is the clock reading taken for
    'registered_at', [later] the one [_save_registry] takes. *)
Definition register_creator {Metadata : Type} (empty : Metadata) (now later : string)
    (self : Registry Metadata) (name fingerprint : string)
    (given : option Metadata) : bool * Registry Metadata :=
  match get fingerprint (creators (contents self)) with
  | Some _ => (false, self)
  | None =>
      let creator_info := mkCreatorInfo name fingerprint now (default empty given) in
      let added :=
        mkContents (set fingerprint creator_info (creators (contents self)))
                   (version (contents self)) (last_updated (contents self)) in
      (true, save_registry later (mkRegistry added (registry_file self)))
  end.

(** [get_creator_info] *)
Definition get_creator_info {Metadata : Type} (self : Registry Metadata)
    (fingerprint : string) : option (CreatorInfo Metadata) :=
  get fingerprint (creators (contents self)).

(** [bool(creator_info)] for what [get_creator_info] returns.  None is
    false.  An entry of this model is the dictionary of four keys that
    [register_creator] writes, which is true; a registry file written by
    other means may hold an entry that Python takes for false (the empty
    dictionary, say), and the model has no such entry. *)
Definition truthy {Metadata : Type} (creator_info : option (CreatorInfo Metadata))
    : bool :=
  match creator_info with
  | None => false
  | Some _ => true
  end.

(** [verify_creator_ownership] *)
Definition verify_creator_ownership {Metadata : Type} (self : Registry Metadata)
    (fingerprint challenge signature : string) : bool :=
  let creator_info := get_creator_info self fingerprint in
  if negb (truthy creator_info) then false else true.


End CreatorRegistry.

(** ** A document no ledger wrote

    Two blocks that do not link: no genesis block, indices 7 and 3, a
    previous hash that is no digest, no proof of work. *)



(** The ledger with another difficulty. *)
Definition set_difficulty (d : Z) (self : Blockchain) : Blockchain :=
  mkBlockchain (chain self) d (blockchain_file self) (stdout self).

(** Block 1 with another creator, signature and clock reading; the
    attribute [hash] is the one block 1 had. *)
Definition block1_reattributed : Block :=
  mkBlock 1 T2 hello "mallory" "beef"
          "0a396940cc82ed25c7a69f01e980c032b744577681c5c98481eb8799a5edf359" 1
          (hash block1).

(** A formatter of timestamps that answers a fixed text. *)
Definition sample_isoformat (_ : PyFloat) : Run string := Done "2023-11-14T22:13:20".

(** ** A concrete key pair

    A toy signer that returns the message bytes reversed, and the verifier
    that accepts exactly that; a loader that knows one PEM text of each. *)

Definition toy_sign (message : list Z) : list Z := rev message.

Definition toy_verify (sig message : list Z) : bool :=
  bool_decide (sig = rev message).

Definition toy_private_loader (pem : list Z) : Run (list Z -> list Z) :=
  if bool_decide (pem = encode "PRIVATE") then Done toy_sign
  else Raised (ValueError "Could not deserialize key data").

Definition toy_public_loader (pem : list Z) : Run (list Z -> list Z -> bool) :=
  if bool_decide (pem = encode "PUBLIC") then Done toy_verify
  else Raised (ValueError "Could not deserialize key data").

(** A registry as a program can hold it: created where no file exists,
    then taken through calls of [register_creator]. *)
Inductive registry_grown {Metadata : Type} (empty : Metadata)
    : CreatorRegistry.Registry Metadata -> Prop :=
  | grown_fresh (now : string) :
      registry_grown empty (CreatorRegistry.init None now)
  | grown_register (now later : string) (self self' : CreatorRegistry.Registry Metadata)
      (name fingerprint : string) (given : option Metadata) (result : bool) :
      registry_grown empty self ->
      CreatorRegistry.register_creator empty now later self name fingerprint given
        = (result, self') ->
      registry_grown empty self'.

(** A registry with one creator, registered with no metadata. *)
Definition one_creator : CreatorRegistry.Registry (list (string * string)) :=
  snd (CreatorRegistry.register_creator [] "2023-12-07T10:00:00Z" "2023-12-07T10:00:01Z"
         (CreatorRegistry.init None "2023-12-07T09:00:00Z")
         "artist_john_doe" "ab12" None).

(** ** Writes that can fail

    [save_blockchain] above is the method on a path that takes every write.
    On a real path its two system calls can raise: [os.makedirs] on the
    directory of the path (on a bare file name that directory is the empty
    string, and the call raises every time) and [open(path, 'w')] (the path
    is a directory, or may not be written).  Neither [save_blockchain] nor
    its callers [create_genesis_block], [add_block] and [__init__] catch
    anything, so the methods that write are embedded again here, with what
    the path answers as a parameter.  A method leaves the object in some
    state also when it raises; the result of a call is that state together
    with the way the call ended.  A file that was opened for writing is
    taken to be written to the end. *)

Module Disk.

Record Path : Type := mkPath {
  makedirs : option exn;    (* what os.makedirs(dirname, exist_ok=True) raises, if it does *)
  open_w : option exn       (* what open(path, 'w') raises, if it does *)
}.

(** A path that takes the write. *)
Definition accepting : Path := mkPath None None.

(** The error a write to the path runs into: [os.makedirs] is called first. *)
Definition write_error (path : Path) : option exn :=
  match makedirs path with
  | Some e => Some e
  | None => open_w path
  end.

(** [Blockchain.save_blockchain]: the directory is made, the document is
    built (which calls [is_valid_chain]), the file is opened and written. *)
Definition save_blockchain (path : Path) (self : Blockchain) : Blockchain * Run unit :=
  match makedirs path with
  | Some e => (self, Raised e)
  | None =>
      match is_valid_chain self with
      | Done valid =>
          match open_w path with
          | Some e => (self, Raised e)
          | None =>
              (set_file
                 (Stored (mkDocument (Some (map to_dict (chain self)))
                                     (Some (Z.of_nat (List.length (chain self))))
                                     (Some valid)))
                 self,
               Done tt)
          end
      | Raised e => (self, Raised e)
      | OutOfFuel => (self, OutOfFuel)
      end
  end.

(** [Blockchain.create_genesis_block]: the block is appended, then saved. *)
Definition create_genesis_block (path : Path) (now : PyFloat) (self : Blockchain)
    : Blockchain * Run unit :=
  save_blockchain path (set_chain (chain self ++ [genesis_block now]) self).

(** [Blockchain.add_block]: [self.chain.append(new_block)] comes before
    [self.save_blockchain()], so a write that raises leaves the block in the
    chain. *)
Definition add_block (path : Path) (fuel : nat) (now : PyFloat) (self : Blockchain)
    (content_hash creator_public_key signature : string) : Blockchain * Run bool :=
  match last (chain self) with
  | None => (self, Done false)
  | Some previous_block =>
      match proof_of_work fuel (difficulty self)
              (new_block previous_block now content_hash creator_public_key signature) with
      | Done mined =>
          if validate_block (difficulty self) mined previous_block then
            let saved := save_blockchain path (set_chain (chain self ++ [mined]) self) in
            (fst saved, bind (snd saved) (fun _ => Done true))
          else (self, Done false)
      | Raised e => (self, Raised e)
      | OutOfFuel => (self, OutOfFuel)
      end
  end.

(** [Blockchain.__init__]: an exception leaves no object behind. *)
Definition init (path : Path) (f : File) (now : PyFloat) : Run Blockchain :=
  self <- load_blockchain (mkBlockchain [] 2 f []) ;;
  if (List.length (chain self) =? 0)%nat then
    let created := create_genesis_block path now self in
    bind (snd created) (fun _ => Done (fst created))
  else Done self.

(** What the caller of a method gets when the state left by a raising call
    is dropped: the result with the object, or the exception. *)
Definition returned {A : Type} (call : Blockchain * Run A) : Run (A * Blockchain) :=
  a <- snd call ;; Done (a, fst call).


End Disk.

(** A path that is a directory: [open] raises on it, for reading and for
    writing alike. *)
Definition is_a_directory : exn := OSError "[Errno 21] Is a directory: '/srv/ledger'".

Definition a_directory : Disk.Path := Disk.mkPath None (Some is_a_directory).

(** A bare file name, as in [Blockchain('ledger.json')]: [os.path.dirname]
    gives the empty string, which [os.makedirs] refuses. *)
Definition no_such_directory : exn := OSError "[Errno 2] No such file or directory: ''".

Definition a_bare_file_name : Disk.Path := Disk.mkPath (Some no_such_directory) None.

(** The ledger of one block after an append whose write raised: block 1 is
    in the chain, the file still holds the snapshot of block 0 alone. *)
Definition unsaved : Blockchain :=
  mkBlockchain [block0; block1] 2 (snapshot [block0] true) [].

(** What [json.load] raises on a file that holds no JSON. *)
Definition not_json : exn := JSONDecodeError "Expecting value: line 1 column 1 (char 0)".

(** * Properties *)

(* Digests are evaluated by the virtual machine on closed blocks only; no
   proof step below should unfold the compression function. *)
Opaque SHA256.digest.
Arguments calculate_hash : simpl never.
Arguments block_string : simpl never.
Arguments meets_difficulty : simpl never.

(** ** Strings and digests *)

Example round_constants_from_primes :
  forallb (fun pk => SHA256.frac_root_bits 3 (fst pk) (snd pk))
          (combine SHA256.primes SHA256.K) = true
  /\ List.length SHA256.K = 64%nat.
Proof. split; vm_compute; reflexivity. Qed.

Example initial_hash_from_primes :
  forallb (fun pk => SHA256.frac_root_bits 2 (fst pk) (snd pk))
          (combine SHA256.primes
                   [SHA256.ra SHA256.H0; SHA256.rb SHA256.H0; SHA256.rc SHA256.H0;
                    SHA256.rd SHA256.H0; SHA256.re SHA256.H0; SHA256.rf SHA256.H0;
                    SHA256.rg SHA256.H0; SHA256.rh SHA256.H0]) = true.
Proof. vm_compute. reflexivity. Qed.

(** The test vectors of FIPS 180-4 for the empty message and for "abc". *)
Example sha256_test_vectors :
  SHA256.hexdigest (encode "") =
    "e3b0c44298fc1c149afbf4c8996fb92427ae41e4649b934ca495991b7852b855" /\
  SHA256.hexdigest (encode "abc") =
    "ba7816bf8f01cfea414140de5dae2223b00361a396177a9cb410ff61f20015ad".
Proof. split; vm_compute; reflexivity. Qed.

Lemma length_string_of_list_ascii (l : list ascii) :
  String.length (string_of_list_ascii l) = List.length l.
Proof. induction l as [|c l IH]; simpl; congruence. Qed.

Lemma hexdigest_length (bs : list Z) :
  String.length (SHA256.hexdigest bs) = 64%nat.
Proof.
  unfold SHA256.hexdigest.
  generalize (SHA256.digest bs); intros r.
  rewrite length_string_of_list_ascii.
  reflexivity.
Qed.

Lemma prefix_cons (c c' : ascii) (p s : string) :
  String.prefix (String c p) (String c' s) =
  if ascii_dec c c' then String.prefix p s else false.
Proof. reflexivity. Qed.

Lemma prefix_length (p s : string) :
  String.prefix p s = true -> (String.length p <= String.length s)%nat.
Proof.
  revert s; induction p as [|c p IH]; intros [|c' s]; cbn [String.length];
    try rewrite prefix_cons; try (cbn; lia); try (cbn; discriminate).
  destruct (ascii_dec c c'); [intros H; apply IH in H; lia | discriminate].
Qed.

Lemma zeros_length (d : Z) : String.length (zeros d) = Z.to_nat d.
Proof.
  unfold zeros, chars. rewrite length_string_of_list_ascii.
  apply repeat_length.
Qed.

Lemma startswith_leading_zeros (s : string) (d : Z) :
  startswith s (zeros d) = true <-> (Z.to_nat d <= leading_zeros s)%nat.
Proof.
  unfold startswith, zeros, chars.
  generalize (Z.to_nat d); intros n; revert s.
  induction n as [|n IH]; intros s.
  - destruct s; cbn; split; auto with arith.
  - cbn [repeat string_of_list_ascii].
    destruct s as [|c s]; [cbn; split; [discriminate | lia]|].
    rewrite prefix_cons. cbn [leading_zeros].
    destruct (ascii_dec "0" c) as [<-|Hc].
    + rewrite Ascii.eqb_refl, IH. lia.
    + destruct (Ascii.eqb_spec c "0") as [->|_]; [congruence|].
      split; [discriminate | lia].
Qed.

Lemma too_difficult (d : Z) (b : Block) :
  64 < d -> meets_difficulty d b = false.
Proof.
  intros Hd. destruct (meets_difficulty d b) eqn:E; [|reflexivity].
  unfold meets_difficulty, startswith in E. apply prefix_length in E.
  rewrite zeros_length in E. unfold calculate_hash in E.
  rewrite hexdigest_length in E. lia.
Qed.

(** ** Blocks *)

Lemma set_nonce_same (b : Block) : set_nonce (nonce b) b = b.
Proof. destruct b; reflexivity. Qed.

Lemma set_nonce_twice (n m : Z) (b : Block) : set_nonce n (set_nonce m b) = set_nonce n b.
Proof. reflexivity. Qed.

Lemma calculate_hash_set_hash (h : string) (b : Block) :
  calculate_hash (set_hash h b) = calculate_hash b.
Proof. reflexivity. Qed.

(** ** The nonce search *)

Lemma pow_loop_eq (fuel : nat) (d : Z) (b : Block) :
  pow_loop fuel d b =
  if meets_difficulty d b then Done (set_hash (calculate_hash b) b)
  else match fuel with
       | O => OutOfFuel
       | S fuel' => pow_loop fuel' d (set_nonce (nonce b + 1) b)
       end.
Proof. destruct fuel; reflexivity. Qed.

(** What each outcome of the loop says about the nonces it went through. *)
Lemma pow_loop_spec (fuel : nat) (d : Z) (b : Block) :
  match pow_loop fuel d b with
  | Done m =>
      exists k : nat,
        (k <= fuel)%nat /\
        m = set_hash (calculate_hash (set_nonce (nonce b + Z.of_nat k) b))
                     (set_nonce (nonce b + Z.of_nat k) b) /\
        meets_difficulty d (set_nonce (nonce b + Z.of_nat k) b) = true /\
        forall j : nat, (j < k)%nat ->
          meets_difficulty d (set_nonce (nonce b + Z.of_nat j) b) = false
  | Raised _ => False
  | OutOfFuel =>
      forall j : nat, (j <= fuel)%nat ->
        meets_difficulty d (set_nonce (nonce b + Z.of_nat j) b) = false
  end.
Proof.
  revert b; induction fuel as [|fuel IH]; intros b; rewrite pow_loop_eq.
  - destruct (meets_difficulty d b) eqn:E.
    + exists O. rewrite Z.add_0_r, set_nonce_same. repeat split; auto; lia.
    + intros j Hj. assert (j = O) as -> by lia.
      now rewrite Z.add_0_r, set_nonce_same.
  - destruct (meets_difficulty d b) eqn:E.
    + exists O. rewrite Z.add_0_r, set_nonce_same. repeat split; auto; lia.
    + specialize (IH (set_nonce (nonce b + 1) b)).
      cbn [nonce set_nonce] in IH.
      destruct (pow_loop fuel d (set_nonce (nonce b + 1) b)) as [m|e|].
      * destruct IH as (k & Hk & -> & Hm & Hlt).
        exists (S k). rewrite set_nonce_twice in *.
        replace (nonce b + 1 + Z.of_nat k) with (nonce b + Z.of_nat (S k)) in * by lia.
        repeat split; auto; try lia.
        intros [|j] Hj.
        -- now rewrite Z.add_0_r, set_nonce_same.
        -- specialize (Hlt j ltac:(lia)). rewrite set_nonce_twice in Hlt.
           now replace (nonce b + Z.of_nat (S j)) with (nonce b + 1 + Z.of_nat j) by lia.
      * exact IH.
      * intros [|j] Hj.
        -- now rewrite Z.add_0_r, set_nonce_same.
        -- specialize (IH j ltac:(lia)). rewrite set_nonce_twice in IH.
           now replace (nonce b + Z.of_nat (S j)) with (nonce b + 1 + Z.of_nat j) by lia.
Qed.

Lemma proof_of_work_spec (fuel : nat) (d : Z) (b m : Block) :
  proof_of_work fuel d b = Done m ->
  exists n : Z,
    0 <= n /\ (Z.to_nat n <= fuel)%nat /\
    m = set_hash (calculate_hash (set_nonce n b)) (set_nonce n b) /\
    meets_difficulty d (set_nonce n b) = true /\
    forall j : Z, 0 <= j < n -> meets_difficulty d (set_nonce j b) = false.
Proof.
  unfold proof_of_work. intros H.
  pose proof (pow_loop_spec fuel d (set_nonce 0 b)) as S. rewrite H in S.
  destruct S as (k & Hk & -> & Hm & Hlt). cbn [nonce set_nonce] in *.
  exists (Z.of_nat k). rewrite !set_nonce_twice in *. cbn [Z.add] in *.
  repeat split; auto; try lia.
  intros j Hj. specialize (Hlt (Z.to_nat j) ltac:(lia)).
  rewrite set_nonce_twice in Hlt. now rewrite Z2Nat.id in Hlt by lia.
Qed.

Lemma proof_of_work_never_raises (fuel : nat) (d : Z) (b : Block) (e : exn) :
  proof_of_work fuel d b <> Raised e.
Proof.
  unfold proof_of_work. intros H.
  pose proof (pow_loop_spec fuel d (set_nonce 0 b)) as S. now rewrite H in S.
Qed.

Lemma proof_of_work_finds (fuel : nat) (d n : Z) (b : Block) :
  0 <= n -> (Z.to_nat n <= fuel)%nat ->
  meets_difficulty d (set_nonce n b) = true ->
  exists m, proof_of_work fuel d b = Done m.
Proof.
  intros Hn Hf Hm. unfold proof_of_work.
  pose proof (pow_loop_spec fuel d (set_nonce 0 b)) as S.
  destruct (pow_loop fuel d (set_nonce 0 b)) as [m|e|]; [eauto | easy |].
  specialize (S (Z.to_nat n) Hf). change (nonce (set_nonce 0 b)) with 0 in S.
  rewrite set_nonce_twice, Z.add_0_l, Z2Nat.id in S by lia. congruence.
Qed.

Lemma proof_of_work_diverges (d : Z) (b : Block) :
  (forall n : Z, 0 <= n -> meets_difficulty d (set_nonce n b) = false) ->
  forall fuel : nat, proof_of_work fuel d b = OutOfFuel.
Proof.
  intros Hall fuel.
  destruct (proof_of_work fuel d b) as [m|e|] eqn:E; [| |reflexivity].
  - apply proof_of_work_spec in E as (n & Hn & _ & _ & Hm & _).
    rewrite Hall in Hm by lia. discriminate.
  - now apply proof_of_work_never_raises in E.
Qed.

(** ** Validation *)

Lemma validate_block_true (d : Z) (n p : Block) :
  validate_block d n p = true <->
  index p + 1 = index n /\ calculate_hash p = previous_hash n /\
  meets_difficulty d n = true.
Proof.
  unfold validate_block.
  destruct (Z.eqb_spec (index p + 1) (index n));
    destruct (String.eqb_spec (calculate_hash p) (previous_hash n));
    destruct (meets_difficulty d n); cbn; intuition congruence.
Qed.

Lemma valid_from_cons (d : Z) (p c : Block) (rest : list Block) :
  valid_from d p (c :: rest) =
  (ok <- check_pair d p c ;; if ok then valid_from d c rest else Done false).
Proof.
  cbn [valid_from]. unfold check_pair.
  destruct (validate_block d c p); cbn; [|reflexivity].
  destruct (hash c) as [stored|]; cbn; [|reflexivity].
  now destruct (calculate_hash c =? stored)%string.
Qed.

Lemma valid_from_snoc (d : Z) (p b : Block) (l : list Block) :
  valid_from d p (l ++ [b]) =
  (ok <- valid_from d p l ;; if ok then check_pair d (List.last l p) b else Done false).
Proof.
  revert p; induction l as [|c l IH]; intros p.
  - cbn [app List.last]. rewrite valid_from_cons. cbn.
    destruct (check_pair d p b) as [[]|e|]; reflexivity.
  - change ((c :: l) ++ [b])%list with (c :: (l ++ [b]))%list.
    rewrite !valid_from_cons, IH.
    replace (List.last (c :: l) p) with (List.last l c)
      by (clear; revert c; induction l; intros; [reflexivity|cbn in *; destruct l; auto]).
    destruct (check_pair d p c) as [[]|e|]; reflexivity.
Qed.

Lemma check_pair_true (d : Z) (p c : Block) :
  check_pair d p c = Done true <->
  validate_block d c p = true /\ hash c = Some (calculate_hash c).
Proof.
  unfold check_pair. destruct (validate_block d c p); cbn.
  - destruct (hash c) as [stored|]; [|split; [discriminate | intros [_ ?]; discriminate]].
    destruct (calculate_hash c =? stored)%string eqn:E.
    + apply String.eqb_eq in E. rewrite E. split; auto.
    + apply String.eqb_neq in E.
      split; [discriminate | intros [_ H]; injection H as H; congruence].
  - split; [discriminate | intros [? _]; discriminate].
Qed.

Lemma check_pair_total (d : Z) (p c : Block) :
  has_hash c -> exists v, check_pair d p c = Done v.
Proof.
  unfold check_pair, has_hash. intros H.
  destruct (validate_block d c p); cbn; [|eauto].
  destruct (hash c); [eauto | contradiction].
Qed.

Lemma valid_from_total (d : Z) (p : Block) (l : list Block) :
  Forall has_hash l -> exists v, valid_from d p l = Done v.
Proof.
  intros H; revert p; induction H as [|c l Hc _ IH]; intros p.
  - exists true; reflexivity.
  - rewrite valid_from_cons.
    destruct (check_pair_total d p c Hc) as [[] ->]; cbn; eauto.
Qed.

Lemma is_valid_chain_total (self : Blockchain) :
  Forall has_hash (chain self) -> exists v, is_valid_chain self = Done v.
Proof.
  unfold is_valid_chain. destruct (chain self) as [|g rest]; [eauto|].
  intros H. apply valid_from_total. now inversion H.
Qed.

Lemma save_blockchain_done (self : Blockchain) (v : bool) :
  is_valid_chain self = Done v ->
  save_blockchain self = Done (set_file (snapshot (chain self) v) self).
Proof. unfold save_blockchain. now intros ->. Qed.

Lemma last_cons_default (g : Block) (rest : list Block) :
  last (g :: rest) = Some (List.last rest g).
Proof.
  destruct rest as [|x r _] using rev_ind; [reflexivity|].
  rewrite List.last_last. change (g :: r ++ [x])%list with ((g :: r) ++ [x])%list.
  apply last_snoc.
Qed.

(** ** Mining and appending *)

(** What [proof_of_work] leaves in the candidate [add_block] built. *)
Lemma mined_block_facts (fuel : nat) (d : Z) (prev m : Block) (now : PyFloat)
    (ch pk sig : string) :
  proof_of_work fuel d (new_block prev now ch pk sig) = Done m ->
  index m = index prev + 1 /\
  previous_hash m = calculate_hash prev /\
  timestamp m = now /\ content_hash m = ch /\
  creator_public_key m = pk /\ signature m = sig /\
  hash m = Some (calculate_hash m) /\
  meets_difficulty d m = true /\
  0 <= nonce m /\
  (forall j : Z, 0 <= j < nonce m ->
     meets_difficulty d (set_nonce j (new_block prev now ch pk sig)) = false).
Proof.
  intros H. apply proof_of_work_spec in H as (n & Hn & _ & -> & Hm & Hlt).
  repeat split; auto.
Qed.

Lemma mined_block_validates (fuel : nat) (d : Z) (prev m : Block) (now : PyFloat)
    (ch pk sig : string) :
  proof_of_work fuel d (new_block prev now ch pk sig) = Done m ->
  validate_block d m prev = true /\ check_pair d prev m = Done true.
Proof.
  intros H. apply mined_block_facts in H as (Hi & Hp & _ & _ & _ & _ & Hh & Hm & _).
  assert (validate_block d m prev = true) as V
    by (apply validate_block_true; auto).
  split; [exact V|]. apply check_pair_true; auto.
Qed.

Lemma commit_block_done (self : Blockchain) (c prev : Block) (v : bool) :
  validate_block (difficulty self) c prev = true ->
  is_valid_chain (set_chain (chain self ++ [c]) self) = Done v ->
  commit_block self c prev =
  Done (true, set_file (snapshot (chain self ++ [c]) v) (set_chain (chain self ++ [c]) self)).
Proof.
  intros V S. unfold commit_block. rewrite V.
  now rewrite (save_blockchain_done _ v S).
Qed.

Lemma add_block_true_inv (fuel : nat) (now : PyFloat) (self self' : Blockchain)
    (ch pk sig : string) :
  add_block fuel now self ch pk sig = Done (true, self') ->
  exists (prev m : Block) (v : bool),
    last (chain self) = Some prev /\
    proof_of_work fuel (difficulty self) (new_block prev now ch pk sig) = Done m /\
    is_valid_chain (set_chain (chain self ++ [m]) self) = Done v /\
    self' = set_file (snapshot (chain self ++ [m]) v) (set_chain (chain self ++ [m]) self).
Proof.
  unfold add_block. destruct (last (chain self)) as [prev|]; [|discriminate].
  destruct (proof_of_work _ _ _) as [m|e|] eqn:P; cbn; try discriminate.
  unfold commit_block. destruct (validate_block _ m prev); [|discriminate].
  unfold save_blockchain.
  destruct (is_valid_chain _) as [v|e|] eqn:V; cbn; try discriminate.
  intros [= <-]. exists prev, m, v. auto.
Qed.

(** Whatever its content hash, key and signature, a mined candidate is
    appended. *)
Lemma add_block_accepts (fuel : nat) (now : PyFloat) (self : Blockchain)
    (ch pk sig : string) (prev m : Block) :
  last (chain self) = Some prev ->
  Forall has_hash (chain self) ->
  proof_of_work fuel (difficulty self) (new_block prev now ch pk sig) = Done m ->
  exists v : bool,
    is_valid_chain (set_chain (chain self ++ [m]) self) = Done v /\
    add_block fuel now self ch pk sig =
    Done (true, set_file (snapshot (chain self ++ [m]) v) (set_chain (chain self ++ [m]) self)).
Proof.
  intros L F P.
  destruct (is_valid_chain_total (set_chain (chain self ++ [m]) self)) as [v V].
  { cbn. apply Forall_app. split; [exact F|]. constructor; [|constructor].
    apply mined_block_facts in P as (_ & _ & _ & _ & _ & _ & Hh & _).
    unfold has_hash. now rewrite Hh. }
  exists v. split; [exact V|].
  unfold add_block. rewrite L, P. cbn.
  apply commit_block_done; [|exact V].
  now apply (mined_block_validates fuel _ _ _ now ch pk sig).
Qed.

(** ** Ledgers built by appends *)

Lemma built_valid (self : Blockchain) :
  built self ->
  exists (g : Block) (rest : list Block),
    chain self = g :: rest /\ valid_from (difficulty self) g rest = Done true.
Proof.
  induction 1 as [now empty self E C | fuel now self self' ch pk sig B IH A].
  - unfold create_genesis_block, save_blockchain in C. rewrite E in C. cbn in C.
    injection C as <-. exists (genesis_block now), []. split; reflexivity.
  - destruct IH as (g & rest & Hc & Hv).
    apply add_block_true_inv in A as (prev & m & v & L & P & _ & ->).
    exists g, (rest ++ [m])%list. cbn. rewrite Hc. split; [reflexivity|].
    rewrite valid_from_snoc, Hv. cbn.
    rewrite Hc, last_cons_default in L. injection L as <-.
    now apply (mined_block_validates fuel _ _ _ now ch pk sig).
Qed.

(** ** The concrete ledger, run *)


Lemma first_append :
  add_block 1 T1 ledger0 hello "alice-key" "00ff" = Done (true, ledger1).
Proof. vm_compute. reflexivity. Qed.

Lemma second_append :
  add_block 0 T2 ledger1 hello "alice-key" "00ff" = Done (true, ledger2).
Proof. vm_compute. reflexivity. Qed.

Lemma first_mining :
  proof_of_work 1 2 (new_block block0 T1 hello "alice-key" "00ff") = Done block1.
Proof. vm_compute. reflexivity. Qed.


Lemma ledger0_hashed : Forall has_hash (chain ledger0).
Proof. repeat constructor; discriminate. Qed.


(** ** C9 *)

(** C9. On a ledger whose chain is empty, [add_block] returns False for any
    content hash, public key and signature, and leaves the ledger as it was:
    no block is appended and the persisted file is not written. *)
Theorem C9_add_block_on_empty_chain (fuel : nat) (now : PyFloat) (self : Blockchain)
    (content_hash creator_public_key signature : string) :
  chain self = [] ->
  add_block fuel now self content_hash creator_public_key signature = Done (false, self).
Proof. intros E. unfold add_block. now rewrite E. Qed.

Lemma C9_witness :
  chain (mkBlockchain [] 2 Absent []) = [] /\
  add_block 0 T1 (mkBlockchain [] 2 Absent []) hello "alice-key" "00ff" =
  Done (false, mkBlockchain [] 2 Absent []).
Proof.
  split; [reflexivity|].
  apply (C9_add_block_on_empty_chain 0 T1 (mkBlockchain [] 2 Absent [])).
  reflexivity.
Defined.

(** ** C6 *)

(** C6. A block accepted by [add_block] is appended at the end of the chain;
    its digest starts with at least [difficulty] characters '0' and is what
    the attribute [hash] holds; its nonce is the first one, counting up from
    0, whose digest does; its index is the previous block's plus one and its
    [previous_hash] is the digest of the previous block. *)
Theorem C6_accepted_block_is_mined (fuel : nat) (now : PyFloat)
    (self self' : Blockchain) (ch pk sig : string) :
  add_block fuel now self ch pk sig = Done (true, self') ->
  exists previous_block accepted : Block,
    last (chain self) = Some previous_block /\
    chain self' = (chain self ++ [accepted])%list /\
    (Z.to_nat (difficulty self) <= leading_zeros (calculate_hash accepted))%nat /\
    hash accepted = Some (calculate_hash accepted) /\
    0 <= nonce accepted /\
    (forall n : Z, 0 <= n < nonce accepted ->
       (leading_zeros
          (calculate_hash (set_nonce n (new_block previous_block now ch pk sig)))
        < Z.to_nat (difficulty self))%nat) /\
    index accepted = index previous_block + 1 /\
    previous_hash accepted = calculate_hash previous_block /\
    content_hash accepted = ch /\ creator_public_key accepted = pk /\
    signature accepted = sig.
Proof.
  intros A. apply add_block_true_inv in A as (prev & m & v & L & P & _ & ->).
  exists prev, m.
  apply mined_block_facts in P as (Hi & Hp & _ & Hc & Hk & Hs & Hh & Hm & Hn & Hlt).
  repeat split; auto.
  - now apply startswith_leading_zeros.
  - intros n Hr. specialize (Hlt n Hr).
    destruct (Nat.lt_ge_cases
                (leading_zeros
                   (calculate_hash (set_nonce n (new_block prev now ch pk sig))))
                (Z.to_nat (difficulty self))) as [|Hge]; [assumption|].
    apply startswith_leading_zeros in Hge.
    unfold meets_difficulty in Hlt. congruence.
Qed.

Lemma C6_witness :
  add_block 1 T1 ledger0 hello "alice-key" "00ff" = Done (true, ledger1) /\
  exists previous_block accepted : Block,
    last (chain ledger0) = Some previous_block /\
    chain ledger1 = (chain ledger0 ++ [accepted])%list /\
    (Z.to_nat (difficulty ledger0) <= leading_zeros (calculate_hash accepted))%nat /\
    hash accepted = Some (calculate_hash accepted) /\
    0 <= nonce accepted /\
    (forall n : Z, 0 <= n < nonce accepted ->
       (leading_zeros
          (calculate_hash
             (set_nonce n (new_block previous_block T1 hello "alice-key" "00ff")))
        < Z.to_nat (difficulty ledger0))%nat) /\
    index accepted = index previous_block + 1 /\
    previous_hash accepted = calculate_hash previous_block /\
    content_hash accepted = hello /\ creator_public_key accepted = "alice-key" /\
    signature accepted = "00ff".
Proof.
  split; [exact first_append|].
  exact (C6_accepted_block_is_mined 1 T1 ledger0 ledger1 hello "alice-key" "00ff"
           first_append).
Defined.

(** ** C3 *)

(** C3, as stated, fails: with a difficulty of 65 no digest (64 characters)
    qualifies, and the append is still searching after any number of steps;
    nothing bounds the search and no error ends it. *)
Lemma C3_counterexample :
  difficulty misconfigured = 65 /\
  forall fuel : nat,
    add_block fuel T1 misconfigured hello "alice-key" "00ff" = OutOfFuel.
Proof.
  split; [reflexivity|]. intros fuel.
  unfold add_block. change (last (chain misconfigured)) with (Some block0).
  change (difficulty misconfigured) with 65. cbv iota beta.
  rewrite proof_of_work_diverges; [reflexivity|].
  intros n _. now apply too_difficult.
Qed.

(** C3, amended. The nonce search of [proof_of_work] has no bound and
    raises nothing (no MiningTimeoutError): it returns exactly when some
    nonce counted up from 0 gives a digest with the required zeros, at the
    first such nonce, and it runs forever when none does, as for every
    difficulty above 64. *)
Theorem C3_search_is_unbounded (d : Z) (block : Block) :
  (forall (fuel : nat) (e : exn), proof_of_work fuel d block <> Raised e) /\
  (forall n : Z, 0 <= n -> meets_difficulty d (set_nonce n block) = true ->
     exists mined : Block,
       proof_of_work (Z.to_nat n) d block = Done mined /\ 0 <= nonce mined <= n) /\
  (forall (fuel : nat) (mined : Block),
     proof_of_work fuel d block = Done mined ->
     meets_difficulty d mined = true /\
     forall n : Z, 0 <= n < nonce mined ->
       meets_difficulty d (set_nonce n block) = false) /\
  ((forall n : Z, 0 <= n -> meets_difficulty d (set_nonce n block) = false) ->
   forall fuel : nat, proof_of_work fuel d block = OutOfFuel) /\
  (64 < d -> forall fuel : nat, proof_of_work fuel d block = OutOfFuel).
Proof.
  split; [intros fuel e; apply proof_of_work_never_raises|].
  split.
  { intros n Hn Hm.
    destruct (proof_of_work_finds (Z.to_nat n) d n block Hn (Nat.le_refl _) Hm)
      as [mined P].
    exists mined. split; [exact P|].
    apply proof_of_work_spec in P as (k & Hk & _ & -> & _ & Hlt).
    cbn [nonce set_hash set_nonce]. split; [lia|].
    destruct (Z.le_gt_cases k n) as [|Hgt]; [assumption|].
    rewrite Hlt in Hm by lia. discriminate. }
  split.
  { intros fuel mined P.
    apply proof_of_work_spec in P as (k & Hk & _ & -> & Hm & Hlt).
    split; [exact Hm | exact Hlt]. }
  split; [apply proof_of_work_diverges|].
  intros Hd. apply proof_of_work_diverges. intros n _. now apply too_difficult.
Qed.

Lemma first_nonce_qualifies :
  meets_difficulty 2 (set_nonce 1 (new_block block0 T1 hello "alice-key" "00ff")) = true.
Proof. vm_compute. reflexivity. Qed.

Lemma C3_witness :
  (exists mined : Block,
     proof_of_work (Z.to_nat 1) 2 (new_block block0 T1 hello "alice-key" "00ff")
       = Done mined /\ 0 <= nonce mined <= 1) /\
  (forall fuel : nat,
     proof_of_work fuel 65 (new_block block0 T1 hello "alice-key" "00ff") = OutOfFuel).
Proof.
  split.
  - apply (proj1 (proj2 (C3_search_is_unbounded 2
                           (new_block block0 T1 hello "alice-key" "00ff"))) 1);
      [lia | exact first_nonce_qualifies].
  - apply (proj2 (proj2 (proj2 (proj2 (C3_search_is_unbounded 65
                           (new_block block0 T1 hello "alice-key" "00ff")))))).
    lia.
Defined.

(** ** C1 *)





(** ** Saving on a path that may refuse the write *)

Lemma disk_save_blockchain (path : Disk.Path) (self : Blockchain) (valid : bool) :
  is_valid_chain self = Done valid ->
  Disk.save_blockchain path self =
  match Disk.write_error path with
  | None => (set_file (snapshot (chain self) valid) self, Done tt)
  | Some e => (self, Raised e)
  end.
Proof.
  intros V. unfold Disk.save_blockchain, Disk.write_error. rewrite V.
  destruct (Disk.makedirs path), (Disk.open_w path); reflexivity.
Qed.

Lemma disk_create_genesis_block (path : Disk.Path) (now : PyFloat) (self : Blockchain) :
  chain self = [] ->
  Disk.create_genesis_block path now self =
  match Disk.write_error path with
  | None =>
      (mkBlockchain [genesis_block now] (difficulty self)
                    (snapshot [genesis_block now] true) (stdout self),
       Done tt)
  | Some e =>
      (mkBlockchain [genesis_block now] (difficulty self) (blockchain_file self)
                    (stdout self),
       Raised e)
  end.
Proof.
  intros E. unfold Disk.create_genesis_block. rewrite E.
  rewrite (disk_save_blockchain _ _ true) by reflexivity.
  destruct (Disk.write_error path); reflexivity.
Qed.

(** A mined candidate is appended, whatever the path then answers. *)
Lemma disk_add_block_mined (path : Disk.Path) (fuel : nat) (now : PyFloat)
    (self : Blockchain) (ch pk sig : string) (prev m : Block) :
  last (chain self) = Some prev ->
  Forall has_hash (chain self) ->
  proof_of_work fuel (difficulty self) (new_block prev now ch pk sig) = Done m ->
  exists valid : bool,
    is_valid_chain (set_chain (chain self ++ [m]) self) = Done valid /\
    Disk.add_block path fuel now self ch pk sig =
    match Disk.write_error path with
    | None =>
        (mkBlockchain (chain self ++ [m]) (difficulty self)
                      (snapshot (chain self ++ [m]) valid) (stdout self),
         Done true)
    | Some e =>
        (mkBlockchain (chain self ++ [m]) (difficulty self) (blockchain_file self)
                      (stdout self),
         Raised e)
    end.
Proof.
  intros L F P.
  destruct (add_block_accepts fuel now self ch pk sig prev m L F P) as (v & V & _).
  exists v. split; [exact V|].
  unfold Disk.add_block. rewrite L, P. cbv beta iota zeta.
  destruct (mined_block_validates fuel _ _ _ now ch pk sig P) as [-> _].
  rewrite (disk_save_blockchain _ _ v V).
  destruct (Disk.write_error path); reflexivity.
Qed.

(** On a path that takes every write, the methods are those embedded
    first. *)
Lemma add_block_on_accepting (fuel : nat) (now : PyFloat) (self : Blockchain)
    (ch pk sig : string) :
  Disk.returned (Disk.add_block Disk.accepting fuel now self ch pk sig) =
  add_block fuel now self ch pk sig.
Proof.
  unfold Disk.returned, Disk.add_block, add_block.
  destruct (last (chain self)) as [prev|]; [|reflexivity].
  destruct (proof_of_work _ _ _) as [m|e|]; cbn [bind fst snd]; try reflexivity.
  unfold commit_block. destruct (validate_block _ m prev); [|reflexivity].
  unfold Disk.save_blockchain, save_blockchain.
  cbn [Disk.makedirs Disk.open_w Disk.accepting].
  destruct (is_valid_chain _) as [v|e|]; reflexivity.
Qed.

Lemma init_on_accepting (f : File) (now : PyFloat) :
  Disk.init Disk.accepting f now = init f now.
Proof.
  unfold Disk.init, init.
  destruct (load_blockchain _) as [self|e|]; cbn [bind]; try reflexivity.
  destruct (List.length (chain self) =? 0)%nat; [|reflexivity].
  unfold Disk.create_genesis_block, create_genesis_block,
    Disk.save_blockchain, save_blockchain.
  cbn [Disk.makedirs Disk.open_w Disk.accepting].
  destruct (is_valid_chain _) as [v|e|]; reflexivity.
Qed.

(** ** C2 *)

(** C2, as stated, fails.  The ledger of one block is opened under a bare
    file name and a block is added: the mined candidate passes
    [validate_block] and is appended, the call ends in the error
    [os.makedirs] raised, and the file still holds the snapshot of one
    block.  Validation succeeded, the block was appended, and the chain was
    not persisted. *)
Lemma C2_counterexample :
  proof_of_work 1 (difficulty ledger0) (new_block block0 T1 hello "alice-key" "00ff")
    = Done block1 /\
  validate_block (difficulty ledger0) block1 block0 = true /\
  Disk.add_block a_bare_file_name 1 T1 ledger0 hello "alice-key" "00ff"
    = (unsaved, Raised no_such_directory) /\
  chain unsaved = (chain ledger0 ++ [block1])%list /\
  blockchain_file unsaved = blockchain_file ledger0 /\
  blockchain_file unsaved <> snapshot (chain unsaved) true.
Proof.
  split; [exact first_mining|].
  split; [vm_compute; reflexivity|].
  split; [vm_compute; reflexivity|].
  split; [reflexivity|]. split; [reflexivity|].
  intros H. vm_compute in H. discriminate H.
Qed.

(** C2, amended.  On a non-empty chain, once the nonce search has returned,
    the mined candidate passes validation: the branch of [add_block] for a
    failed validation, which returns False with the ledger as it was and
    raises no ValidationError, is not taken.  The candidate is appended to
    the chain, then the snapshot of the whole chain is written.  When the
    write succeeds the file holds that snapshot and True is returned.  When
    [os.makedirs] or [open] raises, the error ends the call, with the
    candidate in the chain and the file as it was. *)
Theorem C2_block_is_appended_before_the_write (path : Disk.Path) (fuel : nat)
    (now : PyFloat) (self : Blockchain) (ch pk sig : string)
    (previous_block mined : Block) :
  last (chain self) = Some previous_block ->
  Forall has_hash (chain self) ->
  proof_of_work fuel (difficulty self) (new_block previous_block now ch pk sig)
    = Done mined ->
  validate_block (difficulty self) mined previous_block = true /\
  (forall candidate : Block,
     validate_block (difficulty self) candidate previous_block = false ->
     commit_block self candidate previous_block = Done (false, self)) /\
  exists valid : bool,
    is_valid_chain (set_chain (chain self ++ [mined]) self) = Done valid /\
    Disk.add_block path fuel now self ch pk sig =
    match Disk.write_error path with
    | None =>
        (mkBlockchain (chain self ++ [mined]) (difficulty self)
                      (snapshot (chain self ++ [mined]) valid) (stdout self),
         Done true)
    | Some e =>
        (mkBlockchain (chain self ++ [mined]) (difficulty self)
                      (blockchain_file self) (stdout self),
         Raised e)
    end.
Proof.
  intros L F P. split; [|split].
  - now apply (mined_block_validates fuel _ _ _ now ch pk sig).
  - intros c V. unfold commit_block. now rewrite V.
  - exact (disk_add_block_mined path fuel now self ch pk sig previous_block mined L F P).
Qed.

Lemma C2_witness :
  validate_block (difficulty ledger0) block1 block0 = true /\
  (exists valid : bool,
     Disk.add_block Disk.accepting 1 T1 ledger0 hello "alice-key" "00ff" =
     (mkBlockchain (chain ledger0 ++ [block1]) (difficulty ledger0)
                   (snapshot (chain ledger0 ++ [block1]) valid) (stdout ledger0),
      Done true)) /\
  Disk.add_block a_bare_file_name 1 T1 ledger0 hello "alice-key" "00ff" =
    (mkBlockchain (chain ledger0 ++ [block1]) (difficulty ledger0)
                  (blockchain_file ledger0) (stdout ledger0),
     Raised no_such_directory).
Proof.
  destruct (C2_block_is_appended_before_the_write Disk.accepting 1 T1 ledger0 hello
              "alice-key" "00ff" block0 block1 eq_refl ledger0_hashed first_mining)
    as (V & _ & valid & _ & A).
  destruct (C2_block_is_appended_before_the_write a_bare_file_name 1 T1 ledger0 hello
              "alice-key" "00ff" block0 block1 eq_refl ledger0_hashed first_mining)
    as (_ & _ & valid' & _ & A').
  split; [exact V|]. split; [exists valid; exact A | exact A'].
Defined.

(** ** C4 *)

Lemma find_app_Some {A : Type} (f : A -> bool) (l l' : list A) (a : A) :
  List.find f l = Some a -> List.find f (l ++ l') = Some a.
Proof.
  induction l as [|x l IH]; cbn; [discriminate|].
  destruct (f x); auto.
Qed.





(** ** C7 *)

Lemma create_genesis_block_on_empty (now : PyFloat) (self : Blockchain) :
  chain self = [] ->
  create_genesis_block now self =
  Done (mkBlockchain [genesis_block now] (difficulty self)
                     (snapshot [genesis_block now] true) (stdout self)).
Proof.
  intros E. unfold create_genesis_block. rewrite E.
  now rewrite (save_blockchain_done _ true).
Qed.

(** C7.  When the file exists and reading it raises (it cannot be opened,
    is not JSON, or lacks a key the loader reads), [load_blockchain] raises
    nothing: it prints "Error loading blockchain: " with the error text and
    leaves the chain empty.  [__init__] then creates a genesis block and
    saves it, outside any [try].  If that write succeeds, the new ledger
    holds the genesis block alone, the file the snapshot of it, and standard
    output the one line; a cold start (no file) ends in the same chain and
    prints nothing.  If the write raises, as it does on a path that is a
    directory, construction raises and no ledger exists.  The genesis block
    has index 0, previous hash "0" and its own digest in [hash]. *)
Theorem C7_fallback_is_lost_when_the_write_fails (path : Disk.Path) (f : File)
    (now : PyFloat) (e : exn) :
  f <> Absent ->
  try_load f = Raised e ->
  load_blockchain (mkBlockchain [] 2 f []) =
    Done (mkBlockchain [] 2 f ["Error loading blockchain: " ++ exn_str e]) /\
  Disk.init path f now =
    match Disk.write_error path with
    | None =>
        Done (mkBlockchain [genesis_block now] 2 (snapshot [genesis_block now] true)
                           ["Error loading blockchain: " ++ exn_str e])
    | Some raised => Raised raised
    end /\
  Disk.init path Absent now =
    match Disk.write_error path with
    | None =>
        Done (mkBlockchain [genesis_block now] 2 (snapshot [genesis_block now] true) [])
    | Some raised => Raised raised
    end /\
  index (genesis_block now) = 0 /\
  previous_hash (genesis_block now) = "0" /\
  hash (genesis_block now) = Some (calculate_hash (genesis_block now)).
Proof.
  intros Hf H.
  assert (load_blockchain (mkBlockchain [] 2 f []) =
          Done (mkBlockchain [] 2 f ["Error loading blockchain: " ++ exn_str e])) as L.
  { unfold load_blockchain. cbn [blockchain_file].
    destruct f as [|e'|doc]; [contradiction| |]; now rewrite H. }
  split; [exact L|]. unfold Disk.init. split.
  - rewrite L. cbn [bind chain List.length Nat.eqb].
    rewrite disk_create_genesis_block by reflexivity.
    destruct (Disk.write_error path); reflexivity.
  - split; [|repeat split].
    cbn [load_blockchain blockchain_file bind chain List.length Nat.eqb].
    rewrite disk_create_genesis_block by reflexivity.
    destruct (Disk.write_error path); reflexivity.
Qed.

Lemma C7_witness :
  Unreadable is_a_directory <> Absent /\
  try_load (Unreadable is_a_directory) = Raised is_a_directory /\
  load_blockchain (mkBlockchain [] 2 (Unreadable is_a_directory) []) =
    Done (mkBlockchain [] 2 (Unreadable is_a_directory)
            ["Error loading blockchain: " ++ exn_str is_a_directory]) /\
  Disk.init a_directory (Unreadable is_a_directory) T0 = Raised is_a_directory /\
  Disk.init Disk.accepting (Unreadable not_json) T0 =
    Done (mkBlockchain [genesis_block T0] 2 (snapshot [genesis_block T0] true)
            ["Error loading blockchain: " ++ exn_str not_json]).
Proof.
  split; [discriminate|]. split; [reflexivity|].
  destruct (C7_fallback_is_lost_when_the_write_fails a_directory
              (Unreadable is_a_directory) T0 is_a_directory
              ltac:(discriminate) eq_refl) as (L & I & _).
  destruct (C7_fallback_is_lost_when_the_write_fails Disk.accepting
              (Unreadable not_json) T0 not_json
              ltac:(discriminate) eq_refl) as (_ & I' & _).
  split; [exact L|]. split; [exact I | exact I'].
Defined.

(** ** C10 *)

Lemma block_of_data_sealed (bd : BlockData) (b : Block) :
  block_of_data bd = Done b -> sealed b.
Proof.
  unfold block_of_data, item.
  destruct (d_index bd); [|discriminate].
  destruct (d_timestamp bd); [|discriminate].
  destruct (d_content_hash bd); [|discriminate].
  destruct (d_creator_public_key bd); [|discriminate].
  destruct (d_signature bd); [|discriminate].
  destruct (d_previous_hash bd); [|discriminate].
  cbn [bind]. intros H. injection H as <-. reflexivity.
Qed.

Lemma load_loop_sealed (data : list BlockData) (acc blocks : list Block) :
  Forall sealed acc -> load_loop acc data = Done blocks -> Forall sealed blocks.
Proof.
  revert acc; induction data as [|bd data IH]; intros acc F; cbn [load_loop].
  - intros H. injection H as <-. exact F.
  - destruct (block_of_data bd) as [b|e|] eqn:B; cbn [bind]; try discriminate.
    apply IH. apply Forall_app. split; [exact F|].
    constructor; [|constructor]. now apply block_of_data_sealed in B.
Qed.

Lemma valid_from_sealed (d : Z) (p : Block) (l : list Block) :
  Forall sealed l -> valid_from d p l = Done (linked d p l).
Proof.
  intros F; revert p; induction F as [|c l Hc _ IH]; intros p; [reflexivity|].
  cbn [valid_from linked]. rewrite Hc, String.eqb_refl, IH.
  now destruct (validate_block d c p).
Qed.

(** C10. After a load that raised nothing, every block of the chain holds
    in [hash] its recomputed digest; so on that chain [is_valid_chain]
    answers what the pairwise [validate_block] checks alone answer: its
    comparison of the stored with the recomputed digest never fails. *)
Theorem C10_loaded_hashes_are_recomputed (self : Blockchain) (blocks : list Block) :
  blockchain_file self <> Absent ->
  try_load (blockchain_file self) = Done blocks ->
  load_blockchain self = Done (set_chain blocks self) /\
  Forall (fun block => hash block = Some (calculate_hash block)) blocks /\
  is_valid_chain (set_chain blocks self) = Done (links_valid (set_chain blocks self)).
Proof.
  intros Hf H.
  assert (Forall sealed blocks) as F.
  { unfold try_load in H.
    destruct (read_json (blockchain_file self)) as [doc|e|]; cbn [bind] in H;
      try discriminate.
    destruct (item "chain" (doc_chain doc)) as [data|e|]; cbn [bind] in H;
      try discriminate.
    now apply (load_loop_sealed data [] blocks). }
  split; [|split; [exact F|]].
  - unfold load_blockchain.
    destruct (blockchain_file self) as [|e'|doc]; [contradiction| |];
      now rewrite H.
  - unfold is_valid_chain, links_valid. cbn [chain set_chain difficulty].
    destruct blocks as [|g rest]; [reflexivity|].
    apply valid_from_sealed. now inversion F.
Qed.

Lemma reload_ledger1 : try_load (blockchain_file ledger1) = Done [block0; block1].
Proof. vm_compute. reflexivity. Qed.

Lemma C10_witness :
  blockchain_file ledger1 <> Absent /\
  try_load (blockchain_file ledger1) = Done [block0; block1] /\
  load_blockchain ledger1 = Done (set_chain [block0; block1] ledger1) /\
  Forall (fun block => hash block = Some (calculate_hash block)) [block0; block1] /\
  is_valid_chain (set_chain [block0; block1] ledger1) =
  Done (links_valid (set_chain [block0; block1] ledger1)).
Proof.
  split; [discriminate|]. split; [exact reload_ledger1|].
  apply (C10_loaded_hashes_are_recomputed ledger1 [block0; block1]);
    [discriminate | exact reload_ledger1].
Defined.

(** ** C8 *)

(** C8. On an image input (content type "image", a file path given), both
    entry points invoke every analysis method of their class, once each and
    whatever the confidences are; the overall confidence is the sum of
    confidence times weight over those methods; and the evidence lines are
    those of exactly the methods whose own confidence is above 0.5. *)
Theorem C8_every_detector_is_aggregated (Details : Type)
    (ai_method : AIMethod -> string -> float * Details)
    (tamper_method : TamperMethod -> string -> float * Details)
    (content_data : ContentData) (image_path : string) :
  content_type content_data = Some "image" ->
  file_path content_data = Some image_path ->
  (exists r : Results Details AIMethod,
     detect_ai_generated Details ai_method content_data = Done r /\
     calls r = map detector ai_registry /\
     overall_confidence r = spec_weighted_sum Details ai_method image_path ai_registry /\
     evidence r = spec_evidence Details ai_method image_path ai_registry) /\
  (exists r : Results Details TamperMethod,
     detect_manipulation Details tamper_method content_data = Done r /\
     calls r = map detector tamper_registry /\
     overall_confidence r =
       spec_weighted_sum Details tamper_method image_path tamper_registry /\
     evidence r = spec_evidence Details tamper_method image_path tamper_registry).
Proof.
  intros Ht Hp. split.
  - unfold detect_ai_generated, spec_weighted_sum, spec_evidence, confidence_of,
      invoke, ai_registry.
    rewrite Ht, Hp. cbn [default String.eqb Ascii.eqb Bool.eqb item bind].
    cbn [List.filter map fold_left detector weight line fst snd].
    destruct (ai_method detect_frequency_artifacts image_path) as [c1 d1].
    destruct (ai_method detect_noise_residual_patterns image_path) as [c2 d2].
    destruct (ai_method detect_gan_fingerprints image_path) as [c3 d3].
    destruct (ai_method detect_diffusion_artifacts image_path) as [c4 d4].
    eexists. split; [reflexivity|]. cbn [calls overall_confidence evidence fst].
    split; [reflexivity|]. split; [reflexivity|].
    unfold append_if_over.
    destruct (0.5 <? c1)%float, (0.5 <? c2)%float, (0.5 <? c3)%float,
      (0.5 <? c4)%float; reflexivity.
  - unfold detect_manipulation, spec_weighted_sum, spec_evidence, confidence_of,
      invoke, tamper_registry.
    rewrite Ht, Hp. cbn [default String.eqb Ascii.eqb Bool.eqb item bind].
    cbn [List.filter map fold_left detector weight line fst snd].
    destruct (tamper_method error_level_analysis image_path) as [c1 d1].
    destruct (tamper_method detect_cloning_tampering image_path) as [c2 d2].
    destruct (tamper_method detect_face_swaps image_path) as [c3 d3].
    destruct (tamper_method detect_splicing_tampering image_path) as [c4 d4].
    destruct (tamper_method detect_re_encoding_inconsistencies image_path) as [c5 d5].
    destruct (tamper_method detect_metadata_visual_mismatch image_path) as [c6 d6].
    eexists. split; [reflexivity|]. cbn [calls overall_confidence evidence fst].
    split; [reflexivity|]. split; [reflexivity|].
    unfold append_if_over.
    destruct (0.5 <? c1)%float, (0.5 <? c2)%float, (0.5 <? c3)%float,
      (0.5 <? c4)%float, (0.5 <? c5)%float, (0.5 <? c6)%float; reflexivity.
Qed.

(** ** The serialisation of a block is injective in a field *)

Lemma list_ascii_of_string_app (s t : string) :
  list_ascii_of_string (s ++ t) = (list_ascii_of_string s ++ list_ascii_of_string t)%list.
Proof. induction s as [|c s IH]; cbn; congruence. Qed.

Lemma list_ascii_of_string_inj (s t : string) :
  list_ascii_of_string s = list_ascii_of_string t -> s = t.
Proof.
  intros H. rewrite <- (string_of_list_ascii_of_string s),
    <- (string_of_list_ascii_of_string t). now rewrite H.
Qed.

Lemma append_inv_head (s a b : string) : s ++ a = s ++ b -> a = b.
Proof. induction s as [|c s IH]; cbn; [auto|]. intros H. injection H as H. auto. Qed.

Lemma append_inv_tail (a b t : string) : a ++ t = b ++ t -> a = b.
Proof.
  intros H. apply list_ascii_of_string_inj.
  apply (f_equal list_ascii_of_string) in H.
  rewrite !list_ascii_of_string_app in H. now apply List.app_inv_tail in H.
Qed.

Lemma utf8_first_char (c : ascii) (bs : list Z) :
  utf8_first (utf8_char c ++ bs) = Some (c, bs).
Proof. destruct c as [[] [] [] [] [] [] [] []]; reflexivity. Qed.

Lemma encode_inj (s t : string) : encode s = encode t -> s = t.
Proof.
  unfold encode. intros H. apply list_ascii_of_string_inj.
  revert H. generalize (list_ascii_of_string s) (list_ascii_of_string t).
  intros l; induction l as [|c l IH]; intros [|c' l'] H; cbn [flat_map] in H.
  - reflexivity.
  - apply (f_equal utf8_first) in H. rewrite utf8_first_char in H. discriminate.
  - apply (f_equal utf8_first) in H. rewrite utf8_first_char in H. discriminate.
  - apply (f_equal utf8_first) in H. rewrite !utf8_first_char in H.
    injection H as -> H. f_equal. auto.
Qed.

Lemma unescape_first_escape (c : ascii) (s : string) :
  unescape_first (escape_char c ++ s) = Some (c, s).
Proof. destruct c as [[] [] [] [] [] [] [] []]; reflexivity. Qed.

Lemma escape_inj (s t : string) : escape s = escape t -> s = t.
Proof.
  revert t; induction s as [|c s IH]; intros [|c' t] H; cbn [escape] in H.
  - reflexivity.
  - apply (f_equal unescape_first) in H.
    rewrite unescape_first_escape in H. discriminate.
  - apply (f_equal unescape_first) in H.
    rewrite unescape_first_escape in H. discriminate.
  - apply (f_equal unescape_first) in H.
    rewrite !unescape_first_escape in H. injection H as -> H. f_equal. auto.
Qed.

Lemma dumps_str_inj (s t : string) : dumps_str s = dumps_str t -> s = t.
Proof.
  unfold dumps_str. intros H. injection H as H.
  apply append_inv_tail in H. now apply escape_inj.
Qed.

Lemma to_int_proper (z : Z) :
  Z.to_int z <> Decimal.Pos Decimal.Nil /\ Z.to_int z <> Decimal.Neg Decimal.Nil.
Proof.
  destruct z as [|p|p]; cbn; split; try discriminate;
    intros H; injection H as H; now apply Unsigned.to_uint_nonnil in H.
Qed.

Lemma dumps_int_inj (a b : Z) : dumps_int a = dumps_int b -> a = b.
Proof.
  unfold dumps_int. intros H. apply to_int_inj.
  destruct (to_int_proper a) as [Ha1 Ha2], (to_int_proper b) as [Hb1 Hb2].
  pose proof (NilZero.isi _ Ha1 Ha2) as Ia.
  pose proof (NilZero.isi _ Hb1 Hb2) as Ib.
  rewrite H in Ia. rewrite Ia in Ib. now injection Ib.
Qed.

Lemma block_string_content_hash_inj (v : string) (b : Block) :
  block_string (write (write_content_hash v) b) = block_string b ->
  v = content_hash b.
Proof.
  unfold block_string. cbn [write content_hash creator_public_key index nonce
                            previous_hash signature timestamp].
  intros H. do 2 apply append_inv_head in H.
  apply append_inv_tail in H. now apply dumps_str_inj.
Qed.

Lemma block_string_nonce_inj (v : Z) (b : Block) :
  block_string (write (write_nonce v) b) = block_string b -> v = nonce b.
Proof.
  unfold block_string. cbn [write set_nonce content_hash creator_public_key index
                            nonce previous_hash signature timestamp].
  intros H. do 11 apply append_inv_head in H.
  apply append_inv_tail in H. now apply dumps_int_inj.
Qed.

(** ** C5 *)

Lemma write_index_changes (v : Z) (b : Block) :
  write (write_index v) b <> b -> v <> index b.
Proof. intros H ->. apply H. now destruct b. Qed.

Lemma write_previous_hash_changes (v : string) (b : Block) :
  write (write_previous_hash v) b <> b -> v <> previous_hash b.
Proof. intros H ->. apply H. now destruct b. Qed.

Lemma write_changes_string (w : FieldWrite) (b : Block) :
  write w b <> b ->
  match w with
  | write_content_hash _ | write_nonce _ => block_string (write w b) <> block_string b
  | _ => True
  end.
Proof.
  intros H. destruct w as [v|v|v|v]; [| exact I | | exact I]; intros E; apply H.
  - apply block_string_content_hash_inj in E. subst. now destruct b.
  - apply block_string_nonce_inj in E. subst. now destruct b.
Qed.

(** A write on a pair that was in order is noticed: a new index or
    previous hash fails the comparisons of [validate_block]; a new content
    hash or nonce changes the digest, which no longer is the stored one. *)
Lemma check_pair_after_write (d : Z) (p b : Block) (w : FieldWrite) :
  check_pair d p b = Done true ->
  write w b <> b ->
  match w with
  | write_index _ | write_previous_hash _ => True
  | write_content_hash _ | write_nonce _ =>
      ~ SHA256.collision (encode (block_string b)) (encode (block_string (write w b)))
  end ->
  check_pair d p (write w b) = Done false.
Proof.
  intros C Hw Hcol. apply check_pair_true in C as [V Hh].
  apply validate_block_true in V as (Hi & Hp & Hm).
  pose proof (write_changes_string w b Hw) as Hs.
  unfold check_pair.
  destruct (validate_block d (write w b) p) eqn:V'; [|reflexivity].
  apply validate_block_true in V' as (Hi' & Hp' & Hm'). cbn [negb].
  assert (hash (write w b) = hash b) as -> by now destruct w.
  rewrite Hh.
  destruct (String.eqb_spec (calculate_hash (write w b)) (calculate_hash b))
    as [E|_]; [|reflexivity].
  exfalso. destruct w as [v|v|v|v].
  - apply Hcol. split; [|symmetry; exact E].
    intros Henc. apply encode_inj in Henc. now apply Hs.
  - apply write_previous_hash_changes in Hw. cbn [write previous_hash] in Hp'.
    congruence.
  - apply Hcol. split; [|symmetry; exact E].
    intros Henc. apply encode_inj in Henc. now apply Hs.
  - apply write_index_changes in Hw. cbn [write index] in Hi'. congruence.
Qed.

Lemma valid_from_after_write (d : Z) (g : Block) (rest : list Block) (i : nat)
    (b b' : Block) :
  valid_from d g rest = Done true ->
  rest !! i = Some b ->
  (forall p : Block, check_pair d p b = Done true -> check_pair d p b' = Done false) ->
  valid_from d g (<[i := b']> rest) = Done false.
Proof.
  intros V L Hb. revert g i V L.
  induction rest as [|c rest IH]; intros g i V L; [discriminate|].
  rewrite valid_from_cons in V.
  destruct (check_pair d g c) as [[]|e|] eqn:C; cbn [bind] in V; try discriminate.
  destruct i as [|i].
  - cbn in L. injection L as ->.
    change (<[0%nat := b']> (b :: rest)) with (b' :: rest).
    rewrite valid_from_cons, (Hb g C). reflexivity.
  - change (<[S i := b']> (c :: rest)) with (c :: <[i := b']> rest).
    rewrite valid_from_cons, C. cbn [bind]. now apply IH.
Qed.

(** C5. (1) A ledger built only by successful appends passes
    [is_valid_chain].  (2) On such a ledger, assigning a different value to
    the content hash, previous hash, nonce or index of one block other than
    the genesis block makes [is_valid_chain] answer False.  For the index
    and the previous hash this holds without condition: [validate_block]
    compares them with the block before.  For the content hash and the nonce
    it holds unless the rewritten block is a SHA-256 collision with the
    original one.  (3) A chain of at most one block passes. *)
Theorem C5_chain_validation_is_tamper_evident :
  (forall self : Blockchain, built self -> is_valid_chain self = Done true) /\
  (forall (self : Blockchain) (i : nat) (b : Block) (w : FieldWrite),
     built self ->
     (0 < i)%nat ->
     chain self !! i = Some b ->
     write w b <> b ->
     match w with
     | write_index _ | write_previous_hash _ => True
     | write_content_hash _ | write_nonce _ =>
         ~ SHA256.collision (encode (block_string b))
                            (encode (block_string (write w b)))
     end ->
     is_valid_chain (set_chain (<[i := write w b]> (chain self)) self) = Done false) /\
  (forall self : Blockchain,
     (List.length (chain self) <= 1)%nat -> is_valid_chain self = Done true).
Proof.
  split; [|split].
  - intros self B. destruct (built_valid self B) as (g & rest & Hc & Hv).
    unfold is_valid_chain. now rewrite Hc.
  - intros self i b w B Hi L Hw Hcol.
    destruct (built_valid self B) as (g & rest & Hc & Hv).
    unfold is_valid_chain. cbn [chain set_chain difficulty]. rewrite Hc in *.
    destruct i as [|i]; [lia|].
    change (<[S i := write w b]> (g :: rest)) with (g :: <[i := write w b]> rest).
    apply (valid_from_after_write _ _ _ _ b); auto.
    intros p C. now apply check_pair_after_write.
  - intros self Hl. unfold is_valid_chain.
    destruct (chain self) as [|g [|c rest]]; try reflexivity. cbn in Hl. lia.
Qed.

Lemma ledger2_built : built ledger2.
Proof.
  apply (built_append 0 T2 ledger1 ledger2 hello "alice-key" "00ff");
    [|exact second_append].
  apply (built_append 1 T1 ledger0 ledger1 hello "alice-key" "00ff");
    [|exact first_append].
  apply (built_genesis T0 (mkBlockchain [] 2 Absent []) ledger0); [reflexivity|].
  vm_compute. reflexivity.
Qed.

Lemma forged_is_no_collision :
  ~ SHA256.collision
      (encode (block_string block1))
      (encode (block_string (write (write_content_hash "deadbeef") block1))).
Proof. intros [_ H]. vm_compute in H. discriminate H. Qed.

Lemma forged_differs : write (write_content_hash "deadbeef") block1 <> block1.
Proof. discriminate. Qed.

Lemma renumbered_differs : write (write_index 5) block1 <> block1.
Proof. discriminate. Qed.

Lemma C5_witness :
  built ledger2 /\
  is_valid_chain ledger2 = Done true /\
  chain ledger2 !! 1%nat = Some block1 /\
  is_valid_chain
    (set_chain (<[1%nat := write (write_content_hash "deadbeef") block1]> (chain ledger2))
               ledger2) = Done false /\
  is_valid_chain
    (set_chain (<[1%nat := write (write_index 5) block1]> (chain ledger2)) ledger2)
    = Done false.
Proof.
  split; [exact ledger2_built|].
  split; [exact (proj1 C5_chain_validation_is_tamper_evident ledger2 ledger2_built)|].
  split; [reflexivity|]. split.
  - exact (proj1 (proj2 C5_chain_validation_is_tamper_evident) ledger2 1%nat block1
             (write_content_hash "deadbeef") ledger2_built (Nat.lt_0_succ 0) eq_refl
             forged_differs forged_is_no_collision).
  - exact (proj1 (proj2 C5_chain_validation_is_tamper_evident) ledger2 1%nat block1
             (write_index 5) ledger2_built (Nat.lt_0_succ 0) eq_refl
             renumbered_differs I).
Defined.

Lemma C8_witness :
  content_type sample_image = Some "image" /\
  file_path sample_image = Some "photo.jpg" /\
  (exists r : Results string AIMethod,
     detect_ai_generated string sample_ai sample_image = Done r /\
     calls r = map detector ai_registry /\
     overall_confidence r = spec_weighted_sum string sample_ai "photo.jpg" ai_registry /\
     evidence r = spec_evidence string sample_ai "photo.jpg" ai_registry) /\
  (exists r : Results string TamperMethod,
     detect_manipulation string sample_tamper sample_image = Done r /\
     calls r = map detector tamper_registry /\
     overall_confidence r =
       spec_weighted_sum string sample_tamper "photo.jpg" tamper_registry /\
     evidence r = spec_evidence string sample_tamper "photo.jpg" tamper_registry).
Proof.
  split; [reflexivity|]. split; [reflexivity|].
  exact (C8_every_detector_is_aggregated string sample_ai sample_tamper sample_image
           "photo.jpg" eq_refl eq_refl).
Defined.

(** The evaluation above, computed: 0.5 itself does not exceed 0.5. *)
Example sample_ai_evaluation :
  exists r : Results string AIMethod,
    detect_ai_generated string sample_ai sample_image = Done r /\
    calls r = [detect_frequency_artifacts; detect_noise_residual_patterns;
               detect_gan_fingerprints; detect_diffusion_artifacts] /\
    overall_confidence r = 0.6%float /\
    flagged r = true /\
    evidence r = ["Unnatural frequency domain patterns detected";
                  "GAN fingerprint patterns detected"].
Proof. eexists. split; [vm_compute; reflexivity|]. repeat split. Qed.

(** * Further properties of the code *)

(** ** Lookups *)

(** X1. [get_content_registration] returns the earliest block carrying the
    content hash, and nothing exactly when no block carries it. *)
Theorem X1_lookup_returns_the_earliest_match (self : Blockchain) (h : string) :
  match get_content_registration self h with
  | Some found =>
      exists before after : list Block,
        chain self = (before ++ found :: after)%list /\
        content_hash found = h /\
        Forall (fun block => content_hash block <> h) before
  | None => Forall (fun block => content_hash block <> h) (chain self)
  end.
Proof.
  unfold get_content_registration.
  induction (chain self) as [|b l IH]; cbn [List.find]; [constructor|].
  destruct (String.eqb_spec (content_hash b) h) as [E|N].
  - exists [], l. repeat split; auto.
  - destruct (List.find _ l) as [found|].
    + destruct IH as (before & after & -> & Hh & Hb).
      exists (b :: before), after. repeat split; auto.
    + constructor; auto.
Qed.

Lemma find_app_None {A : Type} (f : A -> bool) (l l' : list A) :
  List.find f l = None -> List.find f (l ++ l') = List.find f l'.
Proof.
  induction l as [|x l IH]; cbn; [reflexivity|].
  destruct (f x); [discriminate | auto].
Qed.

(** X2. After a successful [add_block] with content hash [h]: a lookup of
    any other hash answers as before; a hash that was already registered
    still resolves to its earlier block; a hash that was new resolves to the
    block just appended, which carries the key, signature and clock reading
    of the call. *)
Theorem X2_lookup_after_append (fuel : nat) (now : PyFloat)
    (self self' : Blockchain) (h pk sig : string) :
  add_block fuel now self h pk sig = Done (true, self') ->
  (forall other : string,
     other <> h ->
     get_content_registration self' other = get_content_registration self other) /\
  (forall earlier : Block,
     get_content_registration self h = Some earlier ->
     get_content_registration self' h = Some earlier) /\
  (get_content_registration self h = None ->
   exists appended : Block,
     get_content_registration self' h = Some appended /\
     last (chain self') = Some appended /\
     content_hash appended = h /\ creator_public_key appended = pk /\
     signature appended = sig /\ timestamp appended = now).
Proof.
  intros A. apply add_block_true_inv in A as (prev & m & v & L & P & _ & ->).
  apply mined_block_facts in P as (_ & _ & Ht & Hc & Hk & Hs & _).
  unfold get_content_registration. cbn [chain set_file set_chain].
  split; [|split].
  - intros other Hne.
    destruct (List.find _ (chain self)) as [b|] eqn:F.
    + now apply find_app_Some.
    + rewrite find_app_None by exact F. cbn [List.find].
      rewrite Hc. destruct (String.eqb_spec h other); congruence.
  - intros earlier F. now apply find_app_Some.
  - intros F. exists m. rewrite find_app_None by exact F. cbn [List.find].
    rewrite Hc, String.eqb_refl. repeat split; auto. apply last_snoc.
Qed.

Lemma X2_witness :
  add_block 1 T1 ledger0 hello "alice-key" "00ff" = Done (true, ledger1) /\
  get_content_registration ledger0 hello = None /\
  exists appended : Block,
    get_content_registration ledger1 hello = Some appended /\
    last (chain ledger1) = Some appended /\
    content_hash appended = hello /\ creator_public_key appended = "alice-key" /\
    signature appended = "00ff" /\ timestamp appended = T1.
Proof.
  split; [exact first_append|]. split; [reflexivity|].
  exact (proj2 (proj2 (X2_lookup_after_append 1 T1 ledger0 ledger1 hello
                         "alice-key" "00ff" first_append)) eq_refl).
Defined.

(** ** What [add_block] and [__init__] never do *)

Lemma add_block_false_inv (fuel : nat) (now : PyFloat)
    (self self' : Blockchain) (ch pk sig : string) :
  add_block fuel now self ch pk sig = Done (false, self') ->
  chain self = [] /\ self' = self.
Proof.
  unfold add_block. destruct (last (chain self)) as [prev|] eqn:L.
  - destruct (proof_of_work _ _ _) as [m|e|] eqn:P; cbn [bind]; try discriminate.
    unfold commit_block.
    destruct (mined_block_validates fuel _ _ _ now ch pk sig P) as [-> _].
    destruct (save_blockchain _) as [saved|e|]; cbn [bind]; discriminate.
  - intros H. injection H as <-. split; [|reflexivity].
    destruct (chain self) as [|g rest]; [reflexivity|].
    rewrite last_cons_default in L. discriminate.
Qed.

(** X3. [add_block] returns False exactly on an empty chain, and then
    changes nothing: on a chain with at least one block, a call that returns
    has appended a block and returned True. *)
Theorem X3_false_only_on_empty_chain (fuel : nat) (now : PyFloat)
    (self self' : Blockchain) (ch pk sig : string) :
  add_block fuel now self ch pk sig = Done (false, self') <->
  chain self = [] /\ self' = self.
Proof.
  split; [apply add_block_false_inv|].
  intros [E ->]. unfold add_block. now rewrite E.
Qed.

Lemma X3_witness :
  add_block 0 T1 (mkBlockchain [] 2 Absent []) hello "alice-key" "00ff"
    = Done (false, mkBlockchain [] 2 Absent []) /\
  chain (mkBlockchain [] 2 Absent []) = [] /\
  mkBlockchain [] 2 Absent [] = mkBlockchain [] 2 Absent [].
Proof.
  split; [reflexivity|].
  exact (proj1 (X3_false_only_on_empty_chain 0 T1 (mkBlockchain [] 2 Absent [])
                  (mkBlockchain [] 2 Absent []) hello "alice-key" "00ff") eq_refl).
Defined.












(** After the failed write, an append whose write succeeds puts the whole
    chain in the file. *)
Lemma file_catches_up :
  Disk.add_block Disk.accepting 0 T2 unsaved hello "alice-key" "00ff"
    = (ledger2, Done true).
Proof. vm_compute. reflexivity. Qed.



(** ** Ledgers built by appends: shape and persistence *)

Lemma genesis_block_sealed (now : PyFloat) : sealed (genesis_block now).
Proof. reflexivity. Qed.

Lemma built_sealed (self : Blockchain) : built self -> Forall sealed (chain self).
Proof.
  induction 1 as [now empty self E C | fuel now self self' ch pk sig B IH A].
  - rewrite create_genesis_block_on_empty in C by exact E. injection C as <-.
    repeat constructor.
  - apply add_block_true_inv in A as (prev & m & v & L & P & _ & ->).
    cbn [chain set_file set_chain]. apply Forall_app. split; [exact IH|].
    constructor; [|constructor].
    now apply mined_block_facts in P as (_ & _ & _ & _ & _ & _ & Hh & _).
Qed.

(** X6. In a ledger built only by appends the first block is the genesis
    block (index 0, previous hash "0", the all-zero content hash) and the
    block at position i has index i. *)
Theorem X6_built_chain_is_numbered (self : Blockchain) :
  built self ->
  (exists (now : PyFloat) (rest : list Block),
     chain self = genesis_block now :: rest) /\
  forall (i : nat) (block : Block),
    chain self !! i = Some block -> index block = Z.of_nat i.
Proof.
  induction 1 as [now empty self E C | fuel now self self' ch pk sig B IH A].
  - rewrite create_genesis_block_on_empty in C by exact E. injection C as <-.
    cbn [chain]. split; [now exists now, []|].
    intros [|i] b H; cbn in H; [|discriminate]. now injection H as <-.
  - destruct IH as [(t & rest & C) Hi].
    apply add_block_true_inv in A as (prev & m & v & L & P & _ & ->).
    apply mined_block_facts in P as (Hm & _).
    cbn [chain set_file set_chain]. split.
    + exists t, (rest ++ [m])%list. now rewrite C.
    + intros i b H. apply lookup_app_Some in H as [H | [Hlen H]]; [now apply Hi|].
      destruct (i - List.length (chain self))%nat as [|k] eqn:K; cbn in H;
        [|now destruct k].
      injection H as <-. rewrite last_lookup in L. apply Hi in L.
      rewrite Hm, L. rewrite C in *. cbn [List.length] in *. lia.
Qed.

Lemma X6_witness :
  built ledger2 /\
  (exists (now : PyFloat) (rest : list Block),
     chain ledger2 = genesis_block now :: rest) /\
  forall (i : nat) (block : Block),
    chain ledger2 !! i = Some block -> index block = Z.of_nat i.
Proof.
  split; [exact ledger2_built|].
  exact (X6_built_chain_is_numbered ledger2 ledger2_built).
Defined.

Lemma reseal_sealed (b : Block) : sealed b -> reseal b = b.
Proof.
  destruct b as [i t c k s p n h]. unfold sealed, reseal, set_hash.
  cbn [index timestamp content_hash creator_public_key signature previous_hash
       nonce hash].
  intros H. f_equal. symmetry. exact H.
Qed.

Lemma block_of_data_to_dict (b : Block) : block_of_data (to_dict b) = Done (reseal b).
Proof. reflexivity. Qed.

Lemma load_loop_to_dict (l acc : list Block) :
  load_loop acc (map to_dict l) = Done (acc ++ map reseal l)%list.
Proof.
  revert acc; induction l as [|b l IH]; intros acc; cbn [map load_loop].
  - now rewrite app_nil_r.
  - rewrite block_of_data_to_dict. cbn [bind]. rewrite IH.
    now rewrite <- app_assoc.
Qed.

Lemma map_reseal_sealed (l : list Block) : Forall sealed l -> map reseal l = l.
Proof.
  induction 1 as [|b l H _ IH]; cbn [map]; [reflexivity|].
  now rewrite reseal_sealed, IH.
Qed.

(** X7. Save and reload: reading back the document [save_blockchain] wrote
    gives the saved blocks in order, each with its fields as saved and its
    attribute [hash] recomputed from them (whatever [hash] held before). *)
Theorem X7_reload_of_a_saved_chain (self saved : Blockchain) :
  save_blockchain self = Done saved ->
  chain saved = chain self /\
  try_load (blockchain_file saved) = Done (map reseal (chain self)) /\
  load_blockchain saved = Done (set_chain (map reseal (chain self)) saved).
Proof.
  unfold save_blockchain.
  destruct (is_valid_chain self) as [v|e|]; cbn [bind]; try discriminate.
  intros H. injection H as <-. cbn [chain set_file blockchain_file].
  assert (try_load
            (Stored (mkDocument (Some (map to_dict (chain self)))
                                (Some (Z.of_nat (List.length (chain self)))) (Some v)))
          = Done (map reseal (chain self))) as T.
  { unfold try_load. cbn [read_json bind doc_chain item].
    apply (load_loop_to_dict (chain self) []). }
  split; [reflexivity|]. split; [exact T|].
  unfold load_blockchain. cbn [blockchain_file set_file]. now rewrite T.
Qed.

Lemma save_ledger1 : save_blockchain ledger1 = Done ledger1.
Proof. vm_compute. reflexivity. Qed.

Lemma X7_witness :
  save_blockchain ledger1 = Done ledger1 /\
  chain ledger1 = chain ledger1 /\
  try_load (blockchain_file ledger1) = Done (map reseal (chain ledger1)) /\
  load_blockchain ledger1 = Done (set_chain (map reseal (chain ledger1)) ledger1).
Proof.
  split; [exact save_ledger1|].
  exact (X7_reload_of_a_saved_chain ledger1 ledger1 save_ledger1).
Defined.

Lemma built_file (self : Blockchain) :
  built self -> blockchain_file self = snapshot (chain self) true.
Proof.
  intros B. pose proof (built_valid self B) as (g & rest & C & V).
  destruct B as [now empty self E G | fuel now self self' ch pk sig B A].
  - rewrite create_genesis_block_on_empty in G by exact E. now injection G as <-.
  - apply add_block_true_inv in A as (prev & m & v & L & P & S & ->).
    cbn [chain set_file set_chain blockchain_file difficulty] in *.
    unfold is_valid_chain in S. cbn [chain set_chain difficulty] in S.
    rewrite C, V in S. now injection S as <-.
Qed.

(** X8. A ledger built only by appends keeps its file in step with its
    chain: the file holds the snapshot of the whole chain, flagged valid and
    with the right length.  Constructing a new ledger on that file restores
    the same chain, prints nothing and leaves the file as it is. *)
Theorem X8_restart_restores_the_chain (self : Blockchain) (now : PyFloat) :
  built self ->
  blockchain_file self =
    Stored (mkDocument (Some (map to_dict (chain self)))
                       (Some (Z.of_nat (List.length (chain self)))) (Some true)) /\
  init (blockchain_file self) now =
    Done (mkBlockchain (chain self) 2 (blockchain_file self) []).
Proof.
  intros B. pose proof (built_file self B) as F.
  pose proof (built_sealed self B) as S.
  pose proof (built_valid self B) as (g & rest & C & _).
  split; [exact F|]. rewrite F. unfold init, load_blockchain, snapshot, try_load.
  cbn [blockchain_file read_json bind doc_chain item].
  rewrite (load_loop_to_dict (chain self) []), map_reseal_sealed by exact S.
  cbn [app bind try_except set_chain chain]. rewrite C. reflexivity.
Qed.

Lemma X8_witness :
  built ledger2 /\
  blockchain_file ledger2 =
    Stored (mkDocument (Some (map to_dict (chain ledger2)))
                       (Some (Z.of_nat (List.length (chain ledger2)))) (Some true)) /\
  init (blockchain_file ledger2) T0 =
    Done (mkBlockchain (chain ledger2) 2 (blockchain_file ledger2) []).
Proof.
  split; [exact ledger2_built|].
  exact (X8_restart_restores_the_chain ledger2 T0 ledger2_built).
Defined.

(** ** Loading does not validate *)





(** ** Difficulty *)

Lemma meets_difficulty_mono (d d' : Z) (b : Block) :
  d' <= d -> meets_difficulty d b = true -> meets_difficulty d' b = true.
Proof.
  unfold meets_difficulty. rewrite !startswith_leading_zeros. lia.
Qed.

Lemma validate_block_mono (d d' : Z) (n p : Block) :
  d' <= d -> validate_block d n p = true -> validate_block d' n p = true.
Proof.
  intros Hd. rewrite !validate_block_true. intros (Hi & Hp & Hm).
  repeat split; auto. now apply (meets_difficulty_mono d).
Qed.

Lemma valid_from_mono (d d' : Z) (p : Block) (l : list Block) :
  d' <= d -> valid_from d p l = Done true -> valid_from d' p l = Done true.
Proof.
  intros Hd. revert p; induction l as [|c l IH]; intros p; [reflexivity|].
  rewrite !valid_from_cons.
  destruct (check_pair d p c) as [[]|e|] eqn:C; cbn [bind]; try discriminate.
  apply check_pair_true in C as [V Hh].
  apply (validate_block_mono d d') in V; [|exact Hd].
  assert (check_pair d' p c = Done true) as -> by (apply check_pair_true; auto).
  cbn [bind]. apply IH.
Qed.

(** X10. The proof-of-work requirement is monotone in the difficulty: a
    block accepted by [validate_block], and a chain accepted by
    [is_valid_chain], stay accepted under any lower difficulty.  With a
    difficulty of 0 or less the requirement is empty: ['0' * difficulty] is
    the empty string, and [proof_of_work] returns at nonce 0 without an
    iteration. *)
Theorem X10_difficulty_is_monotone (d d' : Z) :
  d' <= d ->
  (forall new previous : Block,
     validate_block d new previous = true -> validate_block d' new previous = true) /\
  (forall self : Blockchain,
     difficulty self = d ->
     is_valid_chain self = Done true ->
     is_valid_chain (set_difficulty d' self) = Done true) /\
  (d' <= 0 ->
   forall block : Block,
     meets_difficulty d' block = true /\
     proof_of_work 0 d' block =
     Done (set_hash (calculate_hash (set_nonce 0 block)) (set_nonce 0 block))).
Proof.
  intros Hd. split; [|split].
  - intros n p. now apply validate_block_mono.
  - intros self <-. unfold is_valid_chain, set_difficulty. cbn [chain difficulty].
    destruct (chain self) as [|g rest]; [reflexivity|]. now apply valid_from_mono.
  - intros H0 b.
    assert (forall x, meets_difficulty d' x = true) as M.
    { intros x. unfold meets_difficulty. apply startswith_leading_zeros.
      rewrite Z2Nat.nonpos by exact H0. lia. }
    split; [apply M|]. unfold proof_of_work. rewrite pow_loop_eq. now rewrite M.
Qed.

Lemma ledger2_valid : is_valid_chain ledger2 = Done true.
Proof. vm_compute. reflexivity. Qed.

Lemma X10_witness :
  1 <= 2 /\
  difficulty ledger2 = 2 /\
  is_valid_chain ledger2 = Done true /\
  is_valid_chain (set_difficulty 1 ledger2) = Done true.
Proof.
  split; [lia|]. split; [reflexivity|]. split; [exact ledger2_valid|].
  exact (proj1 (proj2 (X10_difficulty_is_monotone 2 1 ltac:(lia))) ledger2 eq_refl
           ledger2_valid).
Defined.

(** ** The digest covers every field *)

Lemma append_assoc (a b c : string) : (a ++ b) ++ c = a ++ (b ++ c).
Proof. induction a as [|x a IH]; cbn; congruence. Qed.

Lemma escape_char_head (c : ascii) (s : string) :
  exists (h : ascii) (t : string), escape_char c ++ s = String h t /\ h <> dquote.
Proof.
  destruct c as [[] [] [] [] [] [] [] []];
    eexists _, _; (split; [reflexivity | discriminate]).
Qed.

Lemma escape_terminated (a a' r r' : string) :
  escape a ++ String dquote r = escape a' ++ String dquote r' -> a = a' /\ r = r'.
Proof.
  revert a'; induction a as [|c a IH]; intros [|c' a'] H; cbn [escape] in H.
  - cbn in H. injection H as ->. auto.
  - rewrite append_assoc in H.
    destruct (escape_char_head c' (escape a' ++ String dquote r')) as (h & t & E & Hh).
    rewrite E in H. cbn in H. injection H as H _. congruence.
  - rewrite append_assoc in H.
    destruct (escape_char_head c (escape a ++ String dquote r)) as (h & t & E & Hh).
    rewrite E in H. cbn in H. injection H as H _. congruence.
  - rewrite !append_assoc in H. apply (f_equal unescape_first) in H.
    rewrite !unescape_first_escape in H. injection H as -> H.
    apply IH in H as [-> ->]. auto.
Qed.

Lemma dumps_str_split (a a' r r' : string) :
  dumps_str a ++ r = dumps_str a' ++ r' -> a = a' /\ r = r'.
Proof.
  unfold dumps_str, chars. cbn [string_of_list_ascii String.append].
  intros H. injection H as H. rewrite !append_assoc in H.
  cbn [String.append] in H. now apply escape_terminated.
Qed.

Lemma uint_no_comma (d : Decimal.uint) :
  ~ In ","%char (list_ascii_of_string (NilEmpty.string_of_uint d)).
Proof.
  induction d; cbn; intros H; try contradiction;
    (destruct H as [H|H]; [discriminate H | auto]).
Qed.

Lemma dumps_int_no_comma (z : Z) :
  ~ In ","%char (list_ascii_of_string (dumps_int z)).
Proof.
  unfold dumps_int.
  assert (forall d, ~ In ","%char (list_ascii_of_string (NilZero.string_of_uint d))) as U.
  { intros d. destruct d; try apply uint_no_comma.
    cbn. intros [H|[]]. discriminate H. }
  destruct (Z.to_int z) as [d|d]; cbn [NilZero.string_of_int]; [apply U|].
  cbn [list_ascii_of_string]. intros [H|H]; [discriminate H | now apply U in H].
Qed.

Lemma comma_split (a a' r r' : string) :
  ~ In ","%char (list_ascii_of_string a) ->
  ~ In ","%char (list_ascii_of_string a') ->
  a ++ String "," r = a' ++ String "," r' -> a = a' /\ r = r'.
Proof.
  revert a'; induction a as [|c a IH]; intros [|c' a'] Ha Ha' H;
    cbn [String.append list_ascii_of_string] in *.
  - injection H as ->. auto.
  - injection H as <- _. exfalso. apply Ha'. now left.
  - injection H as -> _. exfalso. apply Ha. now left.
  - injection H as -> H.
    apply IH in H as [-> ->]; auto; intros X; [apply Ha | apply Ha']; now right.
Qed.

Lemma dumps_int_split (a a' : Z) (r r' : string) :
  dumps_int a ++ ", " ++ r = dumps_int a' ++ ", " ++ r' -> a = a' /\ r = r'.
Proof.
  change (", " ++ r) with (String "," (String " " r)).
  change (", " ++ r') with (String "," (String " " r')).
  intros H. apply comma_split in H as [H E]; try apply dumps_int_no_comma.
  injection E as ->. split; [now apply dumps_int_inj | reflexivity].
Qed.

Lemma block_string_inj (b b' : Block) :
  block_string b = block_string b' -> to_dict b = to_dict b'.
Proof.
  unfold block_string. intros H.
  do 2 apply append_inv_head in H. apply dumps_str_split in H as [Hc H].
  do 2 apply append_inv_head in H. apply dumps_str_split in H as [Hk H].
  do 2 apply append_inv_head in H. apply dumps_int_split in H as [Hi H].
  apply append_inv_head in H. apply dumps_int_split in H as [Hn H].
  apply append_inv_head in H. apply dumps_str_split in H as [Hp H].
  do 2 apply append_inv_head in H. apply dumps_str_split in H as [Hs H].
  do 2 apply append_inv_head in H. apply append_inv_tail in H.
  unfold to_dict. rewrite Hc, Hk, Hi, Hn, Hp, Hs.
  destruct (timestamp b), (timestamp b'). cbn in H. now rewrite H.
Qed.

(** X11. The text that is hashed determines the block, and nothing else
    does: two blocks have the same [json.dumps] text exactly when they have
    the same index, timestamp, content hash, creator key, signature,
    previous hash and nonce.  The attribute [hash] is not part of the text,
    so the digest of a block does not depend on it. *)
Theorem X11_serialisation_is_injective (b b' : Block) :
  (block_string b = block_string b' <-> to_dict b = to_dict b') /\
  (to_dict b = to_dict b' -> calculate_hash b = calculate_hash b').
Proof.
  assert (to_dict b = to_dict b' -> block_string b = block_string b') as Back.
  { unfold to_dict, block_string. intros H. injection H as -> -> -> -> -> -> ->.
    reflexivity. }
  split; [split; [apply block_string_inj | exact Back]|].
  intros H. unfold calculate_hash. now rewrite (Back H).
Qed.

(** X12. On a ledger built only by appends, replacing a block other than
    the genesis block by one that differs from it in any field or fields
    (timestamp, creator key and signature included) while keeping the stored
    attribute [hash] makes [is_valid_chain] answer False, unless the two
    blocks are a SHA-256 collision. *)
Theorem X12_any_rewrite_is_detected (self : Blockchain) (i : nat) (b b' : Block) :
  built self ->
  (0 < i)%nat ->
  chain self !! i = Some b ->
  hash b' = hash b ->
  to_dict b' <> to_dict b ->
  ~ SHA256.collision (encode (block_string b)) (encode (block_string b')) ->
  is_valid_chain (set_chain (<[i := b']> (chain self)) self) = Done false.
Proof.
  intros B Hi L Hh Hd Hcol.
  destruct (built_valid self B) as (g & rest & Hc & Hv).
  unfold is_valid_chain. cbn [chain set_chain difficulty]. rewrite Hc in *.
  destruct i as [|i]; [lia|].
  change (<[S i := b']> (g :: rest)) with (g :: <[i := b']> rest).
  apply (valid_from_after_write _ _ _ _ b); auto.
  intros p C. apply check_pair_true in C as [_ Hs].
  unfold check_pair. destruct (validate_block (difficulty self) b' p); [|reflexivity].
  cbn [negb]. rewrite Hh, Hs.
  destruct (String.eqb_spec (calculate_hash b') (calculate_hash b)) as [E|_];
    [|reflexivity].
  exfalso. apply Hcol. split; [|symmetry; exact E].
  intros Henc. apply encode_inj in Henc.
  apply Hd. symmetry. now apply block_string_inj.
Qed.

Lemma reattributed_is_no_collision :
  ~ SHA256.collision (encode (block_string block1))
                     (encode (block_string block1_reattributed)).
Proof. intros [_ H]. vm_compute in H. discriminate H. Qed.

Lemma reattributed_differs : to_dict block1_reattributed <> to_dict block1.
Proof. discriminate. Qed.

Lemma X12_witness :
  built ledger2 /\
  chain ledger2 !! 1%nat = Some block1 /\
  hash block1_reattributed = hash block1 /\
  is_valid_chain (set_chain (<[1%nat := block1_reattributed]> (chain ledger2)) ledger2)
    = Done false.
Proof.
  split; [exact ledger2_built|]. split; [reflexivity|]. split; [reflexivity|].
  exact (X12_any_rewrite_is_detected ledger2 1%nat block1 block1_reattributed
           ledger2_built (Nat.lt_0_succ 0) eq_refl eq_refl reattributed_differs
           reattributed_is_no_collision).
Defined.

(** ** Verification reports *)

Lemma lookup_Some_In (self : Blockchain) (h : string) (found : Block) :
  get_content_registration self h = Some found ->
  In found (chain self) /\ content_hash found = h.
Proof.
  unfold get_content_registration. intros F. apply List.find_some in F as [I E].
  split; [exact I | now apply String.eqb_eq].
Qed.

Lemma lookup_None_In (self : Blockchain) (h : string) (block : Block) :
  get_content_registration self h = None ->
  In block (chain self) -> content_hash block <> h.
Proof.
  unfold get_content_registration. intros F I.
  apply (List.find_none _ _ F) in I. now apply String.eqb_neq.
Qed.

(** X13. A report [get_verification_report] returns is VERIFIED exactly
    when some block of the chain carries the content hash.  A VERIFIED
    report has confidence 0.95, [is_original] True, the registration of the
    earliest matching block with its digest recomputed, and that block's
    timestamp formatted; a NOT_FOUND report has confidence 0.1,
    [is_original] False and neither registration nor date. *)
Theorem X13_report_follows_the_lookup (isoformat : PyFloat -> Run string)
    (self : Blockchain) (h : string) (report : VerificationReport) :
  get_verification_report isoformat self h = Done report ->
  (report_status report = VERIFIED <->
   exists block : Block, In block (chain self) /\ content_hash block = h) /\
  match report_status report with
  | VERIFIED =>
      report_confidence report = 0.95%float /\
      is_original report = true /\
      exists (found : Block) (seen : string),
        get_content_registration self h = Some found /\
        registration_info report =
          Some (mkRegistration (index found) (timestamp found) h
                               (creator_public_key found) (signature found)
                               (calculate_hash found)) /\
        isoformat (timestamp found) = Done seen /\
        first_seen report = Some seen
  | NOT_FOUND =>
      report_confidence report = 0.1%float /\
      is_original report = false /\
      registration_info report = None /\
      first_seen report = None
  end.
Proof.
  unfold get_verification_report, get_content_registration_record.
  destruct (get_content_registration self h) as [found|] eqn:F; cbn [option_map].
  - destruct (lookup_Some_In self h found F) as [I Hh].
    cbn [registration reg_timestamp].
    destruct (isoformat (timestamp found)) as [seen|e|] eqn:S; cbn [bind];
      try discriminate.
    intros R. injection R as <-. cbn [report_status report_confidence is_original
                                      registration_info first_seen].
    split; [split; [intros _; now exists found | reflexivity]|].
    split; [reflexivity|]. split; [reflexivity|].
    exists found, seen. unfold registration. rewrite Hh. auto.
  - intros R. injection R as <-. cbn [report_status report_confidence is_original
                                      registration_info first_seen].
    split; [|auto].
    split; [discriminate|]. intros (block & I & Hh).
    now apply (lookup_None_In self h block F) in I.
Qed.

(** On a fresh ledger the all-zero content hash is reported as registered:
    it is the content hash of the genesis block. *)
Lemma genesis_hash_report :
  get_verification_report sample_isoformat ledger0
    "0000000000000000000000000000000000000000000000000000000000000000"
  = Done (mkReport VERIFIED 0.95%float "Content registered in blockchain"
            (Some (mkRegistration 0 T0
                     "0000000000000000000000000000000000000000000000000000000000000000"
                     "GENESIS" "GENESIS"
                     "0a396940cc82ed25c7a69f01e980c032b744577681c5c98481eb8799a5edf359"))
            true (Some "2023-11-14T22:13:20")).
Proof. vm_compute. reflexivity. Qed.

Lemma X13_witness :
  get_verification_report sample_isoformat ledger0
    "0000000000000000000000000000000000000000000000000000000000000000"
  = Done (mkReport VERIFIED 0.95%float "Content registered in blockchain"
            (Some (mkRegistration 0 T0
                     "0000000000000000000000000000000000000000000000000000000000000000"
                     "GENESIS" "GENESIS"
                     "0a396940cc82ed25c7a69f01e980c032b744577681c5c98481eb8799a5edf359"))
            true (Some "2023-11-14T22:13:20")) /\
  exists block : Block,
    In block (chain ledger0) /\
    content_hash block =
      "0000000000000000000000000000000000000000000000000000000000000000".
Proof.
  split; [exact genesis_hash_report|].
  exact (proj1 (proj1 (X13_report_follows_the_lookup sample_isoformat ledger0 _ _
                         genesis_hash_report)) eq_refl).
Defined.

(** ** Signatures *)

Lemma hexdigit_spec (d : Z) :
  0 <= d < 16 ->
  isspace (SHA256.hexdigit d) = false /\ hexval (SHA256.hexdigit d) = Some d.
Proof.
  intros H.
  assert (d = 0 \/ d = 1 \/ d = 2 \/ d = 3 \/ d = 4 \/ d = 5 \/ d = 6 \/ d = 7 \/
          d = 8 \/ d = 9 \/ d = 10 \/ d = 11 \/ d = 12 \/ d = 13 \/ d = 14 \/ d = 15)
    as C by lia.
  repeat (destruct C as [-> | C]; [split; reflexivity|]). subst. split; reflexivity.
Qed.

Lemma nibbles (b : Z) :
  0 <= b < 256 ->
  0 <= Z.shiftr b 4 < 16 /\ 0 <= Z.land b 15 < 16 /\
  16 * Z.shiftr b 4 + Z.land b 15 = b.
Proof.
  intros H. rewrite Z.shiftr_div_pow2 by lia.
  change 15 with (Z.ones 4). rewrite Z.land_ones by lia.
  change (2 ^ 4) with 16.
  pose proof (Z.div_mod b 16 ltac:(lia)).
  pose proof (Z.mod_pos_bound b 16 ltac:(lia)).
  assert (0 <= b / 16 < 16)
    by (split; [apply Z.div_pos; lia | apply Z.div_lt_upper_bound; lia]).
  lia.
Qed.

Lemma fromhex_hex (bs : list Z) : is_bytes bs -> fromhex (hex bs) = Done bs.
Proof.
  induction 1 as [|b bs Hb _ IH]; [reflexivity|].
  destruct (nibbles b Hb) as (Hh & Hl & E).
  destruct (hexdigit_spec _ Hh) as [Sh Vh], (hexdigit_spec _ Hl) as [_ Vl].
  change (hex (b :: bs))
    with (String (SHA256.hexdigit (Z.shiftr b 4))
            (String (SHA256.hexdigit (Z.land b 15)) (hex bs))).
  cbn [fromhex]. rewrite Sh, Vh, Vl, IH. cbn [bind]. now rewrite E.
Qed.

(** X14. Signing and verifying compose: the text [sign_content] returns is
    read back by [bytes.fromhex] to the very bytes the private key produced,
    so [verify_signature] on it returns what the public key says of those
    bytes and the content hash, and raises nothing. *)
Theorem X14_verify_reads_back_what_sign_wrote (content_hash : string)
    (private_key : list Z -> list Z) (public_key : list Z -> list Z -> bool) :
  is_bytes (private_key (encode content_hash)) ->
  fromhex (sign_content content_hash private_key)
    = Done (private_key (encode content_hash)) /\
  verify_signature content_hash (sign_content content_hash private_key) public_key
    = Done (public_key (private_key (encode content_hash)) (encode content_hash)).
Proof.
  intros B. unfold verify_signature, sign_content.
  rewrite (fromhex_hex _ B). split; reflexivity.
Qed.

Lemma toy_signature_is_bytes : is_bytes (toy_sign (encode hello)).
Proof. vm_compute. repeat constructor; discriminate. Qed.

Lemma X14_witness :
  is_bytes (toy_sign (encode hello)) /\
  verify_signature hello (sign_content hello toy_sign) toy_verify
    = Done (toy_verify (toy_sign (encode hello)) (encode hello)) /\
  toy_verify (toy_sign (encode hello)) (encode hello) = true.
Proof.
  split; [exact toy_signature_is_bytes|].
  split; [|vm_compute; reflexivity].
  exact (proj2 (X14_verify_reads_back_what_sign_wrote hello toy_sign toy_verify
                  toy_signature_is_bytes)).
Defined.

(** A character [bytes.fromhex] cannot read. *)
Lemma fromhex_bad_char (s : string) :
  (forall c : ascii,
     In c (list_ascii_of_string s) -> hexval c = None -> isspace c = false ->
     exists msg, fromhex s = Raised (ValueError msg)) /\
  (forall c0 c : ascii,
     In c (list_ascii_of_string (String c0 s)) -> hexval c = None ->
     isspace c = false ->
     exists msg, fromhex (String c0 s) = Raised (ValueError msg)).
Proof.
  induction s as [|c1 s [IH0 IH1]].
  - split; [intros c []|].
    intros c0 c [<-|[]] Hv Hs. cbn [fromhex]. rewrite Hs. eauto.
  - split; [exact (IH1 c1)|].
    intros c0 c I Hv Hs. cbn [fromhex].
    destruct (isspace c0) eqn:S0.
    + apply (IH1 c1 c); auto. destruct I as [<-|I]; [congruence | exact I].
    + destruct (hexval c0) as [top|] eqn:V0; [|eauto].
      destruct (hexval c1) as [bot|] eqn:V1; [|eauto].
      destruct I as [<-|[<-|I]]; try congruence.
      destruct (IH0 c I Hv Hs) as [msg ->]. cbn [bind]. eauto.
Qed.

Lemma fromhex_returns_or_raises (s : string) : fromhex s <> OutOfFuel.
Proof.
  assert (forall s, fromhex s <> OutOfFuel /\ forall c, fromhex (String c s) <> OutOfFuel)
    as H.
  { clear s. induction s as [|c1 s [IH0 IH1]].
    - split; [discriminate|]. intros c. cbn [fromhex]. destruct (isspace c); discriminate.
    - split; [exact (IH1 c1)|]. intros c. cbn [fromhex].
      destruct (isspace c); [apply IH1|].
      destruct (hexval c); [|discriminate]. destruct (hexval c1); [|discriminate].
      destruct (fromhex s); cbn [bind]; try discriminate. congruence. }
  apply H.
Qed.

(** X15. The two verifiers differ on a signature that is not hexadecimal
    (it holds a character that is neither a hex digit nor ASCII white
    space): the module-level [verify_signature] raises ValueError, which its
    [except InvalidSignature] does not catch, while
    [IdentityManager.verify_signature] returns False.  The latter never
    raises: it returns True exactly when the key loads, the signature is
    hexadecimal and the key accepts it, and False otherwise. *)
Theorem X15_malformed_signatures (load : list Z -> Run (list Z -> list Z -> bool))
    (pem message signature_hex : string) :
  load (encode pem) <> OutOfFuel ->
  (forall (c : ascii) (public_key : list Z -> list Z -> bool),
     In c (list_ascii_of_string signature_hex) ->
     hexval c = None -> isspace c = false ->
     (exists msg, verify_signature message signature_hex public_key
                  = Raised (ValueError msg)) /\
     IdentityManager.verify_signature load pem message signature_hex = Done false) /\
  (exists answer : bool,
     IdentityManager.verify_signature load pem message signature_hex = Done answer) /\
  (IdentityManager.verify_signature load pem message signature_hex = Done true <->
   exists (public_key : list Z -> list Z -> bool) (sig : list Z),
     load (encode pem) = Done public_key /\
     fromhex signature_hex = Done sig /\
     public_key sig (encode message) = true).
Proof.
  intros NL. pose proof (fromhex_returns_or_raises signature_hex) as NF.
  unfold IdentityManager.verify_signature. split; [|split].
  - intros c public_key I Hv Hs.
    destruct (proj1 (fromhex_bad_char signature_hex) c I Hv Hs) as [msg E].
    split.
    + exists msg. unfold verify_signature. now rewrite E.
    + destruct (load (encode pem)) as [k|e|]; cbn [bind try_except];
        [now rewrite E | reflexivity | contradiction].
  - destruct (load (encode pem)) as [k|e|]; cbn [bind try_except];
      [|eauto | contradiction].
    destruct (fromhex signature_hex) as [sig|e|]; cbn [bind try_except];
      [eauto | eauto | contradiction].
  - destruct (load (encode pem)) as [k|e|]; cbn [bind try_except]; [| |contradiction].
    + destruct (fromhex signature_hex) as [sig|e|]; cbn [bind try_except];
        [| |contradiction].
      * split.
        -- intros H. exists k, sig. repeat split.
           destruct (k sig (encode message)); [reflexivity | discriminate].
        -- intros (k' & sig' & Hk & Hsig & Hv).
           injection Hk as <-. injection Hsig as <-. now rewrite Hv.
      * split; [discriminate|]. intros (k' & sig' & _ & Hsig & _). discriminate.
    + split; [discriminate|]. intros (k' & sig' & Hk & _). discriminate.
Qed.

Lemma toy_loader_returns : toy_public_loader (encode "PUBLIC") <> OutOfFuel.
Proof. vm_compute. discriminate. Qed.

Lemma X15_witness :
  toy_public_loader (encode "PUBLIC") <> OutOfFuel /\
  In "z"%char (list_ascii_of_string "zz") /\
  (exists msg, verify_signature hello "zz" toy_verify = Raised (ValueError msg)) /\
  IdentityManager.verify_signature toy_public_loader "PUBLIC" hello "zz" = Done false.
Proof.
  split; [exact toy_loader_returns|]. split; [now left|].
  exact (proj1 (X15_malformed_signatures toy_public_loader "PUBLIC" hello "zz"
                  toy_loader_returns) "z"%char toy_verify
           (or_introl eq_refl) eq_refl eq_refl).
Defined.

(** X16. [IdentityManager.sign_message] and [verify_signature] compose:
    when both keys load and the public key accepts what the private key
    signs, [sign_message] returns the hexadecimal text of the signature bytes
    and [verify_signature] returns True on it. *)
Theorem X16_signed_messages_verify
    (load_private : list Z -> Run (list Z -> list Z))
    (load_public : list Z -> Run (list Z -> list Z -> bool))
    (private_pem public_pem message : string)
    (private_key : list Z -> list Z) (public_key : list Z -> list Z -> bool) :
  load_private (encode private_pem) = Done private_key ->
  load_public (encode public_pem) = Done public_key ->
  is_bytes (private_key (encode message)) ->
  public_key (private_key (encode message)) (encode message) = true ->
  exists signature_hex : string,
    IdentityManager.sign_message load_private private_pem message = Done signature_hex /\
    signature_hex = hex (private_key (encode message)) /\
    IdentityManager.verify_signature load_public public_pem message signature_hex
      = Done true.
Proof.
  intros Lp Lq B V. exists (hex (private_key (encode message))).
  unfold IdentityManager.sign_message, IdentityManager.verify_signature.
  rewrite Lp, Lq. cbn [bind]. rewrite (fromhex_hex _ B). cbn [bind try_except].
  now rewrite V.
Qed.

Lemma X16_witness :
  exists signature_hex : string,
    IdentityManager.sign_message toy_private_loader "PRIVATE" hello = Done signature_hex /\
    signature_hex = hex (toy_sign (encode hello)) /\
    IdentityManager.verify_signature toy_public_loader "PUBLIC" hello signature_hex
      = Done true.
Proof.
  apply (X16_signed_messages_verify toy_private_loader toy_public_loader
           "PRIVATE" "PUBLIC" hello toy_sign toy_verify).
  - vm_compute. reflexivity.
  - vm_compute. reflexivity.
  - exact toy_signature_is_bytes.
  - vm_compute. reflexivity.
Defined.

(** ** The creator registry *)

Lemma get_set_same {V : Type} (k : string) (v : V) (d : list (string * V)) :
  CreatorRegistry.get k (CreatorRegistry.set k v d) = Some v.
Proof.
  induction d as [|[k' v'] d IH]; cbn [CreatorRegistry.get CreatorRegistry.set].
  - now rewrite String.eqb_refl.
  - destruct (k' =? k)%string eqn:E; cbn [CreatorRegistry.get]; now rewrite E.
Qed.





(** X18. In a registry created without a file and grown by
    [register_creator], where every entry is the dictionary of four keys
    that method writes, [verify_creator_ownership] checks no signature: it
    returns True exactly when the fingerprint is registered, whatever the
    challenge and the signature are.  So after any call of
    [register_creator] for a fingerprint, successful or not, every challenge
    and every signature pass for that fingerprint; and in a newly created
    registry none does. *)
Theorem X18_ownership_is_registration (Metadata : Type) (empty : Metadata)
    (self : CreatorRegistry.Registry Metadata)
    (fingerprint challenge signature : string) :
  registry_grown empty self ->
  (CreatorRegistry.verify_creator_ownership self fingerprint challenge signature = true <->
   exists info, CreatorRegistry.get_creator_info self fingerprint = Some info) /\
  (forall (now later name : string) (given : option Metadata),
     CreatorRegistry.verify_creator_ownership
       (snd (CreatorRegistry.register_creator empty now later self name fingerprint given))
       fingerprint challenge signature = true) /\
  (forall now : string,
     CreatorRegistry.verify_creator_ownership
       (CreatorRegistry.init (Metadata := Metadata) None now)
       fingerprint challenge signature = false).
Proof.
  intros _.
  unfold CreatorRegistry.verify_creator_ownership, CreatorRegistry.truthy,
    CreatorRegistry.get_creator_info.
  cbv zeta. split; [|split].
  - destruct (CreatorRegistry.get fingerprint _) as [info|].
    + split; [now exists info | reflexivity].
    + split; [discriminate | intros [info H]; discriminate].
  - intros now later name given. unfold CreatorRegistry.register_creator.
    destruct (CreatorRegistry.get fingerprint
                (CreatorRegistry.creators (CreatorRegistry.contents self))) as [old|] eqn:G;
      cbn [snd].
    + now rewrite G.
    + unfold CreatorRegistry.save_registry.
      cbn [CreatorRegistry.contents CreatorRegistry.creators].
      now rewrite get_set_same.
  - reflexivity.
Qed.


Lemma X18_witness :
  registry_grown [] (CreatorRegistry.init (Metadata := list (string * string)) None
                       "2023-12-07T09:00:00Z") /\
  CreatorRegistry.verify_creator_ownership one_creator "ab12" "any challenge" "no signature"
    = true.
Proof.
  split; [apply grown_fresh|].
  exact (proj1 (proj2 (X18_ownership_is_registration (list (string * string)) []
                         (CreatorRegistry.init None "2023-12-07T09:00:00Z")
                         "ab12" "any challenge" "no signature"
                         (grown_fresh [] "2023-12-07T09:00:00Z")))
           "2023-12-07T10:00:00Z" "2023-12-07T10:00:01Z" "artist_john_doe" None).
Defined.




(** ** Appending: what changes and what does not *)

(** X21. [add_block] is append-only: whenever it returns, the blocks that
    were in the chain are still there, unchanged and in place, followed by at
    most one new block; the difficulty is unchanged and nothing is printed.
    It also leaves the verdict of [is_valid_chain] as it was: an append to a
    valid chain gives a valid chain, an append to an invalid chain is not
    refused and gives an invalid chain, and the verdict is what the file
    records. *)
Theorem X21_append_only (fuel : nat) (now : PyFloat) (self self' : Blockchain)
    (ch pk sig : string) (result : bool) :
  add_block fuel now self ch pk sig = Done (result, self') ->
  (exists added : list Block,
     chain self' = (chain self ++ added)%list /\
     List.length added = (if result then 1 else 0)%nat) /\
  difficulty self' = difficulty self /\
  stdout self' = stdout self /\
  (result = true ->
   forall verdict : bool,
     is_valid_chain self = Done verdict ->
     is_valid_chain self' = Done verdict /\
     blockchain_file self' = snapshot (chain self') verdict).
Proof.
  intros A. destruct result.
  - apply add_block_true_inv in A as (prev & m & v & L & P & S & ->).
    cbn [chain set_file set_chain difficulty stdout blockchain_file].
    split; [now exists [m]|]. split; [reflexivity|]. split; [reflexivity|].
    intros _ verdict V.
    assert (v = verdict) as ->.
    { unfold is_valid_chain in S, V. cbn [chain set_chain difficulty] in S.
      destruct (chain self) as [|g rest]; [discriminate L|].
      rewrite last_cons_default in L. injection L as <-.
      cbn [app] in S. rewrite valid_from_snoc, V in S. cbn [bind] in S.
      destruct verdict; [|now injection S].
      destruct (mined_block_validates fuel _ _ _ now ch pk sig P) as [_ C].
      rewrite C in S. now injection S. }
    split; [exact S | reflexivity].
  - apply add_block_false_inv in A as [_ ->].
    split; [exists []; now rewrite app_nil_r|].
    split; [reflexivity|]. split; [reflexivity|]. intros H. discriminate H.
Qed.

Lemma X21_witness :
  add_block 1 T1 ledger0 hello "alice-key" "00ff" = Done (true, ledger1) /\
  (exists added : list Block,
     chain ledger1 = (chain ledger0 ++ added)%list /\ List.length added = 1%nat) /\
  difficulty ledger1 = difficulty ledger0 /\
  stdout ledger1 = stdout ledger0.
Proof.
  split; [exact first_append|].
  destruct (X21_append_only 1 T1 ledger0 ledger1 hello "alice-key" "00ff" true
              first_append) as (A & D & O & _).
  exact (conj A (conj D O)).
Defined.


